(** * viam-keyvalue: the [KeyValue] sensor of [src/models/key_value.py]

    A shallow embedding of the storage engine: the in-memory dictionary
    [_memory_store], the SQLite table [key_value_store], the lazy expiry
    sweep and the [do_command] dispatcher with its four handlers.

    Python dictionaries are finite maps with string keys ([gmap string _]);
    timestamps are IEEE binary64 numbers, as [time.time()] returns them;
    a handler is a function from the instance state and the readings it
    takes from the outside world (clock, database availability) to an
    outcome: the response dictionary it returns or the exception it
    raises, together with the new state. *)

From Stdlib Require Import Floats Ascii.
From stdpp Require Import gmap strings list fin_maps.

Set Warnings "-register-all".
Open Scope string_scope.

(** ** Values

    The [ValueTypes] a command dictionary carries. A Python [dict] keeps
    its insertion order, so a mapping is an association list. *)

Inductive value : Type :=
  | VNull : value
  | VBool : bool -> value
  | VInt : Z -> value
  | VFloat : float -> value
  | VStr : string -> value
  | VList : list value -> value
  | VDict : list (string * value) -> value.

(** [not v]: Python's truth test, negated. *)
Definition py_not (v : value) : bool :=
  match v with
  | VNull => true
  | VBool b => negb b
  | VInt z => Z.eqb z 0
  | VFloat f => PrimFloat.eqb f 0%float
  | VStr s => String.eqb s ""
  | VList l => match l with [] => true | _ => false end
  | VDict l => match l with [] => true | _ => false end
  end.

(** [v is None] *)
Definition is_none (v : value) : bool :=
  match v with VNull => true | _ => false end.

(** [d.get(k)]: a missing key reads as [None]. *)
Definition dict_get (d : gmap string value) (k : string) : value :=
  default VNull (d !! k).

(** [None] or a float, as a value of a response dictionary. *)
Definition opt_float (o : option float) : value :=
  match o with None => VNull | Some f => VFloat f end.

(** ** The two tiers *)

(** One value of [_memory_store]. [_handle_set] writes no ["value_type"]
    item, [_load_from_database] does. *)
Record entry : Type := Entry {
  e_value : value;
  e_value_type : option string;
  e_ttl_seconds : value;
  e_created_at : float;
  e_expires_at : option float
}.

(** One row of [key_value_store], without its primary key. *)
Record row : Type := Row {
  r_value : string;
  r_value_type : string;
  r_ttl_seconds : option string;
  r_created_at : float;
  r_expires_at : option float
}.

(** An instance ([_memory_store]) and the table behind [db_path]. *)
Record state : Type := State {
  memory : gmap string entry;
  database : gmap string row
}.

(** What one call reads from outside: the clock at its first
    [time.time()], the clock at the later reading [_load_from_database]
    takes, and whether the SQLite statements of this call go through
    ([false]: [sqlite3] raises, e.g. the table or the directory is
    missing). One flag stands for every statement of the call: a call
    in which one statement fails and another goes through is not
    described here. The clock readings are those of [time.time()],
    numbers. *)
Record world : Type := World {
  clock : float;
  clock_reload : float;
  io_ok : bool
}.

(** [sqlite3.Error], the only exception a handler lets through. *)
Inductive exn : Type :=
  | SqliteError : exn.

Inductive outcome : Type :=
  | Returned : gmap string value -> state -> outcome
  | Raised : exn -> state -> outcome.

Definition final_state (o : outcome) : state :=
  match o with Returned _ s => s | Raised _ s => s end.

Definition response (o : outcome) : option (gmap string value) :=
  match o with Returned r _ => Some r | Raised _ _ => None end.

(** ** Builtins

    The handlers call four things that are not code of this repository:
    [str()] on a value that is not already a string, [float()] on a
    string ([None]: it raises [ValueError]), the [json] module ([None]:
    [JSONDecodeError]), and SQLite's conversion of a text bound to the
    [INTEGER] column [ttl_seconds]. The store is stated over any reading
    of them. *)

Class Builtins : Type := {
  py_repr : value -> string;
  py_float : string -> option float;
  json_dumps : value -> string;
  json_loads : string -> option value;
  sqlite_integer : string -> value
}.

(** ** Reference readings of the builtins

    To run the store on concrete commands, this module gives the
    builtins on the fragment the examples use:
    [None], booleans and integers in decimal. Outside that fragment the
    functions answer with a fixed text or refuse, where Python would go
    on; no example relies on those answers. *)

Module Reference.

Fixpoint digits_go (fuel : nat) (n : N) (acc : string) : string :=
  match fuel with
  | O => acc
  | S fuel' =>
      let acc' := String (Ascii.ascii_of_N (48 + n mod 10)) acc in
      if (n / 10 =? 0)%N then acc' else digits_go fuel' (n / 10) acc'
  end.

(** The decimal text of a natural number. *)
Definition digits (n : N) : string :=
  digits_go (S (N.size_nat n)) n "".

(** [str(z)] for an integer. *)
Definition str_int (z : Z) : string :=
  match z with
  | Z0 => "0"
  | Zpos p => digits (Npos p)
  | Zneg p => "-" ++ digits (Npos p)
  end.

Definition digit_value (a : Ascii.ascii) : option N :=
  let n := Ascii.N_of_ascii a in
  if (48 <=? n)%N && (n <=? 57)%N then Some (n - 48)%N else None.

Fixpoint number_go (s : string) (acc : N) : option N :=
  match s with
  | EmptyString => Some acc
  | String a s' =>
      match digit_value a with
      | Some d => number_go s' (10 * acc + d)
      | None => None
      end
  end.

(** A non-empty run of decimal digits. *)
Definition number (s : string) : option N :=
  match s with
  | EmptyString => None
  | _ => number_go s 0
  end.

(** An integer literal: an optional sign, then digits. *)
Definition int_literal (s : string) : option Z :=
  match s with
  | String "-"%char s' => (fun n => Z.opp (Z.of_N n)) <$> number s'
  | String "+"%char s' => Z.of_N <$> number s'
  | _ => Z.of_N <$> number s
  end.

(** [str(v)] for [None], a boolean or an integer. *)
Definition repr (v : value) : string :=
  match v with
  | VNull => "None"
  | VBool true => "True"
  | VBool false => "False"
  | VInt z => str_int z
  | VFloat _ => "<float>"
  | VStr s => s
  | VList _ => "<list>"
  | VDict _ => "<dict>"
  end.

(** [float(s)] for an integer literal below [2^53] in magnitude, which
    binary64 holds exactly. *)
Definition float_of_string (s : string) : option float :=
  match int_literal s with
  | Some z =>
      if (Z.abs z <? 2 ^ 53)%Z then
        let m := PrimFloat.of_uint63 (Uint63.of_Z (Z.abs z)) in
        Some (if (z <? 0)%Z then PrimFloat.opp m else m)
      else None
  | None => None
  end.

(** [json.dumps(v)] for [None], a boolean or an integer. *)
Definition dumps (v : value) : string :=
  match v with
  | VNull => "null"
  | VBool true => "true"
  | VBool false => "false"
  | VInt z => str_int z
  | _ => "<json>"
  end.

(** [json.loads(s)] for the texts [dumps] writes. *)
Definition loads (s : string) : option value :=
  if String.eqb s "null" then Some VNull
  else if String.eqb s "true" then Some (VBool true)
  else if String.eqb s "false" then Some (VBool false)
  else VInt <$> int_literal s.

(** The [INTEGER] column gives an integer text back as an integer and
    keeps any other text. *)
Definition integer_column (s : string) : value :=
  match int_literal s with
  | Some z => VInt z
  | None => VStr s
  end.

End Reference.

Definition reference : Builtins :=
  {| py_repr := Reference.repr;
     py_float := Reference.float_of_string;
     json_dumps := Reference.dumps;
     json_loads := Reference.loads;
     sqlite_integer := Reference.integer_column |}.

(** [float()] also reads the text "nan". *)
Definition float_or_nan (s : string) : option float :=
  if String.eqb s "nan" then Some nan else Reference.float_of_string s.

Definition reference_with_nan : Builtins :=
  {| py_repr := Reference.repr;
     py_float := float_or_nan;
     json_dumps := Reference.dumps;
     json_loads := Reference.loads;
     sqlite_integer := Reference.integer_column |}.

(** ** Example data

    Commands and worlds of the shape the tests use, for the closed examples
    at the end. *)

Module Example.

(** A dictionary literal. *)
Definition dict (items : list (string * value)) : gmap string value :=
  list_to_map items.

Definition fresh : state := {| memory := ∅; database := ∅ |}.

(** The clock reads 100 (then 101 for a reload); SQLite works. *)
Definition at_100 : world := {| clock := 100; clock_reload := 101; io_ok := true |}.
Definition at_120 : world := {| clock := 120; clock_reload := 121; io_ok := true |}.
(** The same instants with SQLite failing. *)
Definition failing_at_100 : world := {| clock := 100; clock_reload := 101; io_ok := false |}.
Definition failing_at_120 : world := {| clock := 120; clock_reload := 121; io_ok := false |}.

Definition set_a_1 : gmap string value :=
  dict [("command", VStr "set"); ("key", VStr "a"); ("value", VInt 1)].
Definition set_b_2 : gmap string value :=
  dict [("command", VStr "set"); ("key", VStr "b"); ("value", VInt 2)].
Definition get_a : gmap string value :=
  dict [("command", VStr "get"); ("key", VStr "a")].
Definition set_a_null : gmap string value :=
  dict [("command", VStr "set"); ("key", VStr "a"); ("value", VNull)].
Definition set_a_ttl_soon : gmap string value :=
  dict [("command", VStr "set"); ("key", VStr "a"); ("value", VInt 1);
        ("ttl_seconds", VStr "soon")].
Definition set_a_ttl_minus_5 : gmap string value :=
  dict [("command", VStr "set"); ("key", VStr "a"); ("value", VInt 1);
        ("ttl_seconds", VInt (-5))].
Definition set_persist_60 : gmap string value :=
  dict [("command", VStr "set"); ("key", VStr "persist"); ("value", VStr "val");
        ("ttl_seconds", VInt 60)].
Definition set_persist : gmap string value :=
  dict [("command", VStr "set"); ("key", VStr "persist"); ("value", VStr "val")].
Definition get_persist : gmap string value :=
  dict [("command", VStr "get"); ("key", VStr "persist")].
Definition delete_nope : gmap string value :=
  dict [("command", VStr "delete"); ("key", VStr "nope")].
Definition delete_all : gmap string value :=
  dict [("command", VStr "delete_all")].

Definition entry_a_1 : entry :=
  {| e_value := VInt 1; e_value_type := None; e_ttl_seconds := VNull;
     e_created_at := 100; e_expires_at := None |}.
Definition row_a_1 : row :=
  {| r_value := "1"; r_value_type := "json"; r_ttl_seconds := None;
     r_created_at := 100; r_expires_at := None |}.
Definition row_persist : row :=
  {| r_value := "val"; r_value_type := "string"; r_ttl_seconds := None;
     r_created_at := 100; r_expires_at := None |}.

(** An instance holding the key [a], cache and table in step. *)
Definition holding_a : state :=
  {| memory := {[ "a" := entry_a_1 ]}; database := {[ "a" := row_a_1 ]} |}.

(** An instance that has not loaded yet, over a table with one row. *)
Definition unloaded : state :=
  {| memory := ∅; database := {[ "persist" := row_persist ]} |}.

(** More data, for the properties beyond the claims. *)

Definition at_105 : world := {| clock := 105; clock_reload := 106; io_ok := true |}.

Definition flush : gmap string value := dict [("command", VStr "flush")].
Definition delete_a : gmap string value :=
  dict [("command", VStr "delete"); ("key", VStr "a")].
Definition get_b : gmap string value :=
  dict [("command", VStr "get"); ("key", VStr "b")].
Definition set_a_ttl_10 : gmap string value :=
  dict [("command", VStr "set"); ("key", VStr "a"); ("value", VInt 1);
        ("ttl_seconds", VInt 10)].
Definition set_a_ttl_nan : gmap string value :=
  dict [("command", VStr "set"); ("key", VStr "a"); ("value", VInt 1);
        ("ttl_seconds", VStr "nan")].
Definition set_5 : gmap string value :=
  dict [("command", VStr "set"); ("key", VInt 5); ("value", VStr "five")].
Definition get_5_text : gmap string value :=
  dict [("command", VStr "get"); ("key", VStr "5")].
Definition set_0 : gmap string value :=
  dict [("command", VStr "set"); ("key", VInt 0); ("value", VStr "zero")].
Definition get_0 : gmap string value :=
  dict [("command", VStr "get"); ("key", VInt 0)].

(** The key [a] held until time 110. *)
Definition entry_a_until_110 : entry :=
  {| e_value := VInt 1; e_value_type := None; e_ttl_seconds := VInt 10;
     e_created_at := 100; e_expires_at := Some 110%float |}.
Definition row_a_until_110 : row :=
  {| r_value := "1"; r_value_type := "json"; r_ttl_seconds := Some "10";
     r_created_at := 100; r_expires_at := Some 110%float |}.
Definition holding_a_until_110 : state :=
  {| memory := {[ "a" := entry_a_until_110 ]};
     database := {[ "a" := row_a_until_110 ]} |}.

End Example.

(** ** The store *)

Section Store.

Context {lib : Builtins}.

(** [str(v)], taken to return a text (Python refuses only an integer
    beyond its digit limit). *)
Definition py_str (v : value) : string :=
  match v with
  | VStr s => s
  | _ => py_repr v
  end.

(** [v == s] for a string literal [s] *)
Definition eq_str (v : value) (s : string) : bool :=
  match v with
  | VStr t => String.eqb t s
  | _ => false
  end.

(** *** Persistence *)

(** The test of [_load_from_database]:
    [expires_at is None or expires_at > current_time]. *)
Definition live_at (current_time : float) (expires_at : option float) : bool :=
  match expires_at with
  | None => true
  | Some x => PrimFloat.ltb current_time x
  end.

(** The value a stored text reads back as. *)
Definition deserialize (value_type text : string) : value :=
  if String.eqb value_type "json" then
    match json_loads text with
    | Some v => v
    | None => VStr text
    end
  else VStr text.

Definition load_row (current_time : float) (r : row) : option entry :=
  if live_at current_time (r_expires_at r) then
    Some {| e_value := deserialize (r_value_type r) (r_value r);
            e_value_type := Some (r_value_type r);
            e_ttl_seconds :=
              match r_ttl_seconds r with
              | None => VNull
              | Some s => sqlite_integer s
              end;
            e_created_at := r_created_at r;
            e_expires_at := r_expires_at r |}
  else None.

(** [_load_from_database]: a failing query leaves the dictionary as it
    was (the exception is caught before [clear()] runs). *)
Definition _load_from_database (io : bool) (current_time : float) (st : state) : state :=
  if io then
    {| memory := omap (load_row current_time) (database st);
       database := database st |}
  else st.

(** The type tag and the text [_save_to_database] writes. *)
Definition serialize (v : value) : string * string :=
  match v with
  | VStr s => ("string", s)
  | _ => ("json", json_dumps v)
  end.

(** What a REAL column holds of a bound number: SQLite stores a NaN as
    NULL. *)
Definition sqlite_real (o : option float) : option float :=
  match o with
  | Some x => if PrimFloat.is_nan x then None else Some x
  | None => None
  end.

(** [_save_to_database]: [INSERT OR REPLACE]; a failure is logged and
    nothing is written. *)
Definition _save_to_database (io : bool) (key : string) (v : value)
    (ttl_seconds : option string) (created_at : float)
    (expires_at : option float) (db : gmap string row) : gmap string row :=
  if io then
    <[key := {| r_value := (serialize v).2;
                r_value_type := (serialize v).1;
                r_ttl_seconds := ttl_seconds;
                r_created_at := created_at;
                r_expires_at := sqlite_real expires_at |}]> db
  else db.

(** [_delete_from_database] *)
Definition _delete_from_database (io : bool) (key : string)
    (db : gmap string row) : gmap string row :=
  if io then delete key db else db.

(** *** Expiry *)

(** The test of [_cleanup_expired_keys]:
    [expires_at is not None and expires_at <= current_time]. *)
Definition is_expired (current_time : float) (e : entry) : bool :=
  match e_expires_at e with
  | None => false
  | Some x => PrimFloat.leb x current_time
  end.

Definition expired_keys (current_time : float) (mem : gmap string entry) : list string :=
  (filter (fun kv => is_expired current_time kv.2 = true) (map_to_list mem)).*1.

Definition remove_key (io : bool) (st : state) (key : string) : state :=
  {| memory := delete key (memory st);
     database := _delete_from_database io key (database st) |}.

(** [_cleanup_expired_keys]: collect, then remove one by one. *)
Definition _cleanup_expired_keys (io : bool) (current_time : float) (st : state) : state :=
  foldl (remove_key io) st (expired_keys current_time (memory st)).

(** What the sweep leaves of one cached entry, as a function of the
    entry alone. *)
Definition swept (now : float) (o : option entry) : option entry :=
  match o with
  | Some e => if is_expired now e then None else Some e
  | None => None
  end.

(** *** Commands *)

Definition error_response (msg : string) : gmap string value :=
  {[ "error" := VStr msg ]}.

Definition entry_response (key_str : string) (data : entry) : gmap string value :=
  {[ "success" := VBool true;
     "key" := VStr key_str;
     "value" := e_value data;
     "created_at" := VFloat (e_created_at data);
     "expires_at" := opt_float (e_expires_at data) ]}.

(** The write both branches of [_handle_set] end with. *)
Definition store_entry (w : world) (key v ttl_seconds : value)
    (ttl_str : option string) (expires_at : option float) (st : state) : outcome :=
  Returned
    {[ "success" := VBool true; "key" := VStr (py_str key); "value" := v ]}
    {| memory :=
         <[py_str key := {| e_value := v;
                            e_value_type := None;
                            e_ttl_seconds := ttl_seconds;
                            e_created_at := clock w;
                            e_expires_at := expires_at |}]> (memory st);
       database :=
         _save_to_database (io_ok w) (py_str key) v ttl_str (clock w)
           expires_at (database st) |}.

Definition _handle_set (command : gmap string value) (w : world) (st : state) : outcome :=
  let key := dict_get command "key" in
  let v := dict_get command "value" in
  let ttl_seconds := dict_get command "ttl_seconds" in
  if is_none key || is_none v then
    Returned (error_response "Both 'key' and 'value' are required for set command") st
  else if negb (is_none ttl_seconds) then
    match py_float (py_str ttl_seconds) with
    | Some ttl_float =>
        store_entry w key v ttl_seconds (Some (py_str ttl_seconds))
          (Some (clock w + ttl_float)%float) st
    | None => Returned (error_response "ttl_seconds must be a valid number") st
    end
  else store_entry w key v ttl_seconds None None st.

Definition not_found (key : value) : gmap string value :=
  error_response ("Key '" ++ py_str key ++ "' not found").

Definition _handle_get (command : gmap string value) (w : world) (st : state) : outcome :=
  let key := dict_get command "key" in
  if py_not key then
    Returned (error_response "'key' is required for get command") st
  else
    let st1 := _cleanup_expired_keys (io_ok w) (clock w) st in
    let key_str := py_str key in
    match memory st1 !! key_str with
    | Some data => Returned (entry_response key_str data) st1
    | None =>
        if decide (memory st1 = ∅) then
          let st2 := _load_from_database (io_ok w) (clock_reload w) st1 in
          match memory st2 !! key_str with
          | Some data => Returned (entry_response key_str data) st2
          | None => Returned (not_found key) st2
          end
        else Returned (not_found key) st1
    end.

Definition _handle_delete (command : gmap string value) (w : world) (st : state) : outcome :=
  let key := dict_get command "key" in
  if py_not key then
    Returned (error_response "'key' is required for delete command") st
  else
    let key_str := py_str key in
    Returned
      {[ "success" := VBool true; "key" := VStr key_str; "deleted" := VBool true ]}
      {| memory :=
           match memory st !! key_str with
           | Some _ => delete key_str (memory st)
           | None => memory st
           end;
         database := _delete_from_database (io_ok w) key_str (database st) |}.

(** [_handle_delete_all]: the [DELETE] statement is not guarded; the
    count is read from the dictionary after [clear()]. *)
Definition _handle_delete_all (command : gmap string value) (w : world) (st : state) : outcome :=
  let cleared : gmap string entry := ∅ in
  if io_ok w then
    Returned
      {[ "success" := VBool true;
         "deleted_count" := VInt (Z.of_nat (size cleared)) ]}
      {| memory := cleared; database := ∅ |}
  else Raised SqliteError {| memory := cleared; database := database st |}.

Definition do_command (command : gmap string value) (w : world) (st : state) : outcome :=
  let command_name := dict_get command "command" in
  if eq_str command_name "set" then _handle_set command w st
  else if eq_str command_name "get" then _handle_get command w st
  else if eq_str command_name "delete" then _handle_delete command w st
  else if eq_str command_name "delete_all" then _handle_delete_all command w st
  else Returned (error_response ("Unknown command: " ++ py_str command_name)) st.


(** *** Error classes

    The code tells its errors apart by message only. These are the
    messages of the handlers' argument checks (a missing or malformed
    key, value or TTL): the specification's [InvalidArgument]. *)
Definition invalid_argument (r : gmap string value) : Prop :=
  r = error_response "Both 'key' and 'value' are required for set command"
  ∨ r = error_response "ttl_seconds must be a valid number"
  ∨ r = error_response "'key' is required for get command"
  ∨ r = error_response "'key' is required for delete command".

(** *** Sequences of commands, and a restart *)

(** The commands of a list, each with the world it runs in, one after the
    other on the same instance. *)
Definition run (commands : list (gmap string value * world)) (st : state) : state :=
  foldl (fun st cw => final_state (do_command cw.1 cw.2 st)) st commands.

(** A new instance over the same table, loaded: [KeyValue(name)] starts
    with an empty dictionary, [_load_from_database] fills it. *)
Definition restart (io : bool) (current_time : float) (st : state) : state :=
  _load_from_database io current_time {| memory := ∅; database := database st |}.

(** The [json] module reads back what it wrote for [v]; a string never
    reaches it. *)
Definition json_round_trips (v : value) : Prop :=
  match v with
  | VStr _ => True
  | _ => json_loads (json_dumps v) = Some v
  end.

(** *** Readings *)

(** What [get_readings] lists for one entry. *)
Definition reading (data : entry) : gmap string value :=
  {[ "value" := e_value data;
     "created_at" := VFloat (e_created_at data);
     "expires_at" := opt_float (e_expires_at data) ]}.

(** [get_readings]: an empty cache is loaded first (the clock is read at
    [load_time] there), then the sweep runs (at [sweep_time]); the result
    is the dictionary returned under ["data"], and the new state. *)
Definition get_readings (io : bool) (load_time sweep_time : float) (st : state)
    : gmap string (gmap string value) * state :=
  let st1 := if decide (memory st = ∅) then _load_from_database io load_time st else st in
  let st2 := _cleanup_expired_keys io sweep_time st1 in
  (reading <$> memory st2, st2).

(** *** Write-through

    Every cached entry has its row, with the same times, and the row's
    text reads back as the cached value. *)
Definition cached_from_table (st : state) : Prop :=
  ∀ k e, memory st !! k = Some e →
    ∃ r, database st !! k = Some r
         ∧ r_created_at r = e_created_at e
         ∧ r_expires_at r = e_expires_at e
         ∧ deserialize (r_value_type r) (r_value r) = e_value e.

(** The expiry a set command computes, if it computes one, is a number:
    [current_time + ttl_float] is not NaN. *)
Definition expiry_is_number (command : gmap string value) (w : world) : Prop :=
  ∀ ttl_float, py_float (py_str (dict_get command "ttl_seconds")) = Some ttl_float →
    PrimFloat.is_nan (clock w + ttl_float) = false.

End Store.

(** * Properties *)

Section Properties.

Context {lib : Builtins}.

(** ** The two expiry tests

    The sweep removes an entry when [expires_at <= now]; the load keeps a
    row when [expires_at > now]. On numbers the two are complementary; a
    NaN fails both comparisons. *)

Lemma SFcompare_antisym (f1 f2 : spec_float) :
  SFcompare f2 f1 = option_map CompOpp (SFcompare f1 f2).
Proof.
  destruct f1 as [s1|s1| |s1 m1 e1], f2 as [s2|s2| |s2 m2 e2];
    try destruct s1; try destruct s2; try reflexivity; simpl;
    rewrite (Z.compare_antisym e1 e2); destruct (e1 ?= e2)%Z; simpl; try reflexivity;
    rewrite ?(Pos.compare_cont_antisym m1 m2 Eq); simpl; try reflexivity;
    destruct (Pos.compare_cont Eq m2 m1); reflexivity.
Qed.

Lemma eqb_refl_not_nan (x : float) : PrimFloat.eqb x x = true → Prim2SF x ≠ S754_nan.
Proof. rewrite FloatAxioms.eqb_spec. intros Heq Hnan. rewrite Hnan in Heq. discriminate. Qed.

Lemma ltb_negb_leb (x now : float) :
  PrimFloat.eqb x x = true → PrimFloat.eqb now now = true →
  PrimFloat.ltb now x = negb (PrimFloat.leb x now).
Proof.
  intros Hx Hn. apply eqb_refl_not_nan in Hx, Hn.
  rewrite FloatAxioms.ltb_spec, FloatAxioms.leb_spec. unfold SFltb, SFleb.
  rewrite (SFcompare_antisym (Prim2SF x) (Prim2SF now)).
  destruct (SFcompare (Prim2SF x) (Prim2SF now)) as [[]|] eqn:Hc; try reflexivity.
  destruct (Prim2SF x), (Prim2SF now); try congruence; simpl in Hc;
    repeat match type of Hc with
           | context [if ?b then _ else _] => destruct b
           end; discriminate.
Qed.

Lemma ltb_true_leb_false (x now : float) :
  PrimFloat.ltb now x = true → PrimFloat.leb x now = false.
Proof.
  rewrite FloatAxioms.ltb_spec, FloatAxioms.leb_spec. unfold SFltb, SFleb.
  rewrite (SFcompare_antisym (Prim2SF x) (Prim2SF now)).
  by destruct (SFcompare (Prim2SF x) (Prim2SF now)) as [[]|].
Qed.

Lemma SFcompare_refl (f : spec_float) : f ≠ S754_nan → SFcompare f f = Some Eq.
Proof.
  destruct f as [s|s| |s m e]; try destruct s; try done; intros _; simpl;
    by rewrite Z.compare_refl, ?Pos.compare_cont_refl.
Qed.

Lemma not_nan_is_nan (x : float) : Prim2SF x ≠ S754_nan → PrimFloat.is_nan x = false.
Proof.
  intros Hx. unfold PrimFloat.is_nan. rewrite FloatAxioms.eqb_spec. unfold SFeqb.
  by rewrite SFcompare_refl.
Qed.

Lemma ltb_true_is_number (x now : float) :
  PrimFloat.ltb now x = true → PrimFloat.is_nan x = false.
Proof.
  rewrite FloatAxioms.ltb_spec. intros Hlt. apply not_nan_is_nan. intros Hnan.
  rewrite Hnan in Hlt. unfold SFltb, SFcompare in Hlt.
  by destruct (Prim2SF now) as [?|?| |? ? ?].
Qed.

(** A live expiry is a number, which the REAL column keeps as it is. *)
Lemma live_is_stored (now : float) (expires_at : option float) :
  live_at now expires_at = true → sqlite_real expires_at = expires_at.
Proof.
  destruct expires_at as [x|]; [|done]. simpl. intros Hlt.
  by rewrite (ltb_true_is_number _ _ Hlt).
Qed.

Lemma add_nan (c : float) : Prim2SF (c + nan)%float = S754_nan.
Proof.
  rewrite FloatAxioms.add_spec. change (Prim2SF nan) with S754_nan.
  unfold SF64add, SFadd. by destruct (Prim2SF c) as [?|?| |? ? ?].
Qed.

Lemma leb_add_nan (c now : float) : PrimFloat.leb (c + nan) now = false.
Proof. by rewrite FloatAxioms.leb_spec, add_nan. Qed.

Lemma ltb_add_nan (c now : float) : PrimFloat.ltb now (c + nan) = false.
Proof.
  rewrite FloatAxioms.ltb_spec, add_nan. unfold SFltb, SFcompare.
  by destruct (Prim2SF now) as [?|?| |? ? ?].
Qed.

(** ** The expiry sweep *)

Lemma remove_keys_memory (io : bool) (l : list string) (st : state) (k : string) :
  memory (foldl (remove_key io) st l) !! k =
  if bool_decide (k ∈ l) then None else memory st !! k.
Proof.
  revert st. induction l as [|x l IH]; intros st; cbn [foldl].
  - by rewrite bool_decide_eq_false_2 by apply not_elem_of_nil.
  - rewrite IH. destruct (decide (k ∈ l)) as [Hin|Hin].
    + by rewrite !bool_decide_eq_true_2 by (done || (apply elem_of_cons; auto)).
    + rewrite (bool_decide_eq_false_2 (k ∈ l)) by done.
      destruct (decide (k = x)) as [->|Hne].
      * rewrite bool_decide_eq_true_2 by (apply elem_of_cons; auto).
        apply lookup_delete_eq.
      * rewrite bool_decide_eq_false_2 by (by apply not_elem_of_cons).
        by apply lookup_delete_ne.
Qed.

Lemma remove_keys_database (io : bool) (l : list string) (st : state) (k : string) :
  database (foldl (remove_key io) st l) !! k =
  if io && bool_decide (k ∈ l) then None else database st !! k.
Proof.
  revert st. induction l as [|x l IH]; intros st; cbn [foldl].
  - rewrite bool_decide_eq_false_2 by apply not_elem_of_nil. by rewrite andb_false_r.
  - rewrite IH. destruct io; cbn [andb remove_key database _delete_from_database]; [|done].
    destruct (decide (k ∈ l)) as [Hin|Hin].
    + rewrite !bool_decide_eq_true_2 by (done || (apply elem_of_cons; auto)). done.
    + rewrite (bool_decide_eq_false_2 (k ∈ l)) by done.
      destruct (decide (k = x)) as [->|Hne].
      * rewrite bool_decide_eq_true_2 by (apply elem_of_cons; auto).
        apply lookup_delete_eq.
      * rewrite bool_decide_eq_false_2 by (by apply not_elem_of_cons).
        by apply lookup_delete_ne.
Qed.

Lemma elem_of_expired_keys (now : float) (mem : gmap string entry) (k : string) :
  k ∈ expired_keys now mem ↔ ∃ e, mem !! k = Some e ∧ is_expired now e = true.
Proof.
  unfold expired_keys. rewrite list_elem_of_fmap. split.
  - intros [[k' e] [-> Hin]]. apply list_elem_of_filter in Hin as [Hexp Hin].
    apply elem_of_map_to_list in Hin. eauto.
  - intros (e & Hk & Hexp). exists (k, e). split; [done|].
    apply list_elem_of_filter. split; [done|]. by apply elem_of_map_to_list.
Qed.

Lemma cleanup_memory (io : bool) (now : float) (st : state) (k : string) :
  memory (_cleanup_expired_keys io now st) !! k = swept now (memory st !! k).
Proof.
  unfold _cleanup_expired_keys. rewrite remove_keys_memory.
  destruct (decide (k ∈ expired_keys now (memory st))) as [Hin|Hin].
  - rewrite bool_decide_eq_true_2 by done.
    apply elem_of_expired_keys in Hin as (e & -> & Hexp). simpl. by rewrite Hexp.
  - rewrite bool_decide_eq_false_2 by done.
    destruct (memory st !! k) as [e|] eqn:Hk; simpl; [|done].
    destruct (is_expired now e) eqn:Hexp; [|done].
    exfalso. apply Hin, elem_of_expired_keys. eauto.
Qed.

Lemma cleanup_database (io : bool) (now : float) (st : state) (k : string) :
  database (_cleanup_expired_keys io now st) !! k =
  match memory st !! k with
  | Some e => if io && is_expired now e then None else database st !! k
  | None => database st !! k
  end.
Proof.
  unfold _cleanup_expired_keys. rewrite remove_keys_database.
  destruct (decide (k ∈ expired_keys now (memory st))) as [Hin|Hin].
  - rewrite bool_decide_eq_true_2 by done.
    apply elem_of_expired_keys in Hin as (e & -> & ->). done.
  - rewrite bool_decide_eq_false_2 by done. rewrite andb_false_r.
    destruct (memory st !! k) as [e|] eqn:Hk; [|done].
    destruct (is_expired now e) eqn:Hexp; [|by rewrite andb_false_r].
    exfalso. apply Hin, elem_of_expired_keys. eauto.
Qed.


(** C4: run at time [now], the sweep removes from the cache exactly the
    entries whose [expires_at] is present and at most [now], and deletes
    the row of each removed key (when the statement goes through); any
    other entry, and the row of any other key, is left as it was. *)
Theorem cleanup_removes_exactly_expired (io : bool) (now : float) (st : state) (k : string) :
  memory (_cleanup_expired_keys io now st) !! k =
    match memory st !! k with
    | Some e => if is_expired now e then None else Some e
    | None => None
    end
  ∧ database (_cleanup_expired_keys io now st) !! k =
    match memory st !! k with
    | Some e => if io && is_expired now e then None else database st !! k
    | None => database st !! k
    end.
Proof. split; [apply cleanup_memory | apply cleanup_database]. Qed.

(** ** Dispatch *)

Lemma eq_str_true (v : value) (s : string) : eq_str v s = true → v = VStr s.
Proof.
  destruct v; simpl; try discriminate. intros H. by apply String.eqb_eq in H as ->.
Qed.

Lemma do_command_set (command : gmap string value) (w : world) (st : state) :
  eq_str (dict_get command "command") "set" = true →
  do_command command w st = _handle_set command w st.
Proof. intros H. unfold do_command. by rewrite H. Qed.

Lemma do_command_get (command : gmap string value) (w : world) (st : state) :
  eq_str (dict_get command "command") "get" = true →
  do_command command w st = _handle_get command w st.
Proof.
  intros H. unfold do_command. by rewrite (eq_str_true _ _ H).
Qed.

Lemma do_command_delete (command : gmap string value) (w : world) (st : state) :
  eq_str (dict_get command "command") "delete" = true →
  do_command command w st = _handle_delete command w st.
Proof.
  intros H. unfold do_command. by rewrite (eq_str_true _ _ H).
Qed.

Lemma do_command_delete_all (command : gmap string value) (w : world) (st : state) :
  eq_str (dict_get command "command") "delete_all" = true →
  do_command command w st = _handle_delete_all command w st.
Proof.
  intros H. unfold do_command. by rewrite (eq_str_true _ _ H).
Qed.


(** ** Argument checks *)

(** C8: a set command whose value is null, whatever its key, returns the
    argument error of [_handle_set] and leaves cache and table as they
    were. *)
Theorem set_null_value_rejected (command : gmap string value) (w : world) (st : state) :
  eq_str (dict_get command "command") "set" = true →
  dict_get command "value" = VNull →
  ∃ r, do_command command w st = Returned r st
       ∧ invalid_argument r
       ∧ r !! "error" =
           Some (VStr "Both 'key' and 'value' are required for set command").
Proof.
  intros Hc Hv. rewrite do_command_set by done. unfold _handle_set.
  rewrite Hv. simpl. rewrite orb_true_r.
  eexists. split; [done|]. split; [by left|]. by vm_compute.
Qed.

(** C2, as the code has it: a set command whose [ttl_seconds] is present
    and not accepted by [float()] returns an argument error and stores
    nothing, in the cache or in the table. *)
Theorem set_unparsable_ttl_rejected (command : gmap string value) (w : world) (st : state) :
  eq_str (dict_get command "command") "set" = true →
  is_none (dict_get command "ttl_seconds") = false →
  py_float (py_str (dict_get command "ttl_seconds")) = None →
  ∃ r, do_command command w st = Returned r st ∧ invalid_argument r.
Proof.
  intros Hc Httl Hf. rewrite do_command_set by done. unfold _handle_set.
  rewrite Httl, Hf. simpl.
  destruct (is_none (dict_get command "key") || is_none (dict_get command "value")).
  - eexists. split; [done|]. by left.
  - eexists. split; [done|]. right. by left.
Qed.

(** C7: a delete command with a key that passes the check of
    [_handle_delete] returns [success] and [deleted = true], never an
    error, whether or not the key was cached; afterwards the key is in
    neither tier's reach of this call: absent from the cache, and absent
    from the table when the statement went through. *)
Theorem delete_reports_deleted (command : gmap string value) (w : world) (st : state) :
  eq_str (dict_get command "command") "delete" = true →
  py_not (dict_get command "key") = false →
  ∃ r st',
    do_command command w st = Returned r st'
    ∧ r !! "success" = Some (VBool true)
    ∧ r !! "deleted" = Some (VBool true)
    ∧ r !! "error" = None
    ∧ memory st' = delete (py_str (dict_get command "key")) (memory st)
    ∧ database st' =
        _delete_from_database (io_ok w) (py_str (dict_get command "key")) (database st).
Proof.
  intros Hc Hk. rewrite do_command_delete by done. unfold _handle_delete.
  rewrite Hk. do 2 eexists. split; [done|].
  repeat split; try by vm_compute.
  simpl. destruct (memory st !! _) eqn:Hm; [done|].
  symmetry. by apply delete_id.
Qed.

(** ** delete_all *)

(** C3, at the failing input: when the [DELETE] statement of
    [_handle_delete_all] fails, [do_command] raises the SQLite error
    instead of returning a response; the cache is already cleared. *)
Theorem delete_all_raises_on_io_failure (command : gmap string value) (w : world) (st : state) :
  eq_str (dict_get command "command") "delete_all" = true →
  io_ok w = false →
  do_command command w st = Raised SqliteError {| memory := ∅; database := database st |}.
Proof.
  intros Hc Hio. rewrite do_command_delete_all by done.
  unfold _handle_delete_all. by rewrite Hio.
Qed.

(** X20: whenever the [DELETE] statement goes through, delete_all
    returns [success] with [deleted_count = 0], however many entries the
    cache and the table held, and leaves both empty: the count is read
    after the cache is cleared. *)
Theorem delete_all_counts_zero (command : gmap string value) (w : world) (st : state) :
  eq_str (dict_get command "command") "delete_all" = true →
  io_ok w = true →
  ∃ r,
    do_command command w st = Returned r {| memory := ∅; database := ∅ |}
    ∧ r !! "success" = Some (VBool true)
    ∧ r !! "deleted_count" = Some (VInt 0).
Proof.
  intros Hc Hio. rewrite do_command_delete_all by done.
  unfold _handle_delete_all. rewrite Hio. eexists. split; [done|].
  split; by vm_compute.
Qed.


(** ** get *)

Lemma cleanup_empty (io : bool) (now : float) (st : state) :
  memory st = ∅ → _cleanup_expired_keys io now st = st.
Proof.
  intros Hm. unfold _cleanup_expired_keys, expired_keys.
  by rewrite Hm, map_to_list_empty.
Qed.

Lemma entry_response_value (key_str : string) (data : entry) :
  entry_response key_str data !! "value" = Some (e_value data).
Proof. reflexivity. Qed.

Lemma entry_response_success (key_str : string) (data : entry) :
  entry_response key_str data !! "success" = Some (VBool true).
Proof. reflexivity. Qed.

Lemma entry_response_no_error (key_str : string) (data : entry) :
  entry_response key_str data !! "error" = None.
Proof. reflexivity. Qed.

Lemma not_found_error (key : value) :
  not_found key !! "error" = Some (VStr ("Key '" ++ py_str key ++ "' not found")).
Proof. reflexivity. Qed.

(** C6: a get command with a key that passes the check of [_handle_get]
    runs the sweep; the response is served from the swept cache, or, when
    that is empty, from the cache reloaded from the table. In particular a
    cache that is empty beforehand is reloaded before the key is looked
    up. The response is the not-found error exactly when the key is absent
    from the cache the call ends with, and the entry found there
    otherwise. *)
Theorem get_sweeps_then_reloads (command : gmap string value) (w : world) (st : state) :
  eq_str (dict_get command "command") "get" = true →
  py_not (dict_get command "key") = false →
  let key := dict_get command "key" in
  let st1 := _cleanup_expired_keys (io_ok w) (clock w) st in
  ∃ r st',
    do_command command w st = Returned r st'
    ∧ (st' = st1
       ∨ (memory st1 = ∅ ∧ st' = _load_from_database (io_ok w) (clock_reload w) st1))
    ∧ (memory st = ∅ → st' = _load_from_database (io_ok w) (clock_reload w) st)
    ∧ (memory st' !! py_str key = None ↔ r = not_found key)
    ∧ (∀ data, memory st' !! py_str key = Some data → r = entry_response (py_str key) data).
Proof.
  intros Hc Hk key st1. rewrite do_command_get by done. unfold _handle_get.
  rewrite Hk. fold key. fold st1.
  assert (Hne : ∀ d, entry_response (py_str key) d ≠ not_found key).
  { intros d Heq. apply (f_equal (.!! "error")) in Heq.
    by rewrite entry_response_no_error, not_found_error in Heq. }
  destruct (memory st1 !! py_str key) as [data|] eqn:Hm.
  - exists (entry_response (py_str key) data), st1. split; [done|].
    split; [by left|]. split.
    { intros He. subst st1. rewrite cleanup_empty in Hm by done.
      by rewrite He, lookup_empty in Hm. }
    rewrite Hm. split; [|by intros ? [= <-]].
    split; [done|]. intros Heq. by apply Hne in Heq.
  - destruct (decide (memory st1 = ∅)) as [He|He].
    + set (st2 := _load_from_database (io_ok w) (clock_reload w) st1).
      destruct (memory st2 !! py_str key) as [data|] eqn:Hm2.
      * exists (entry_response (py_str key) data), st2. split; [done|].
        split; [by right|]. split.
        { intros He'. subst st2 st1. by rewrite cleanup_empty. }
        rewrite Hm2. split; [|by intros ? [= <-]].
        split; [done|]. intros Heq. by apply Hne in Heq.
      * exists (not_found key), st2. split; [done|].
        split; [by right|]. split.
        { intros He'. subst st2 st1. by rewrite cleanup_empty. }
        rewrite Hm2. split; [done|]. done.
    + exists (not_found key), st1. split; [done|].
      split; [by left|]. split.
      { intros He'. subst st1. rewrite cleanup_empty in He by done. done. }
      rewrite Hm. split; [done|]. done.
Qed.


(** ** set, then get *)

(** What an accepted set command leaves behind: the response names no
    error only if the entry was written under [str(key)]. *)
Lemma set_accepted (command : gmap string value) (w : world) (st : state)
    (r : gmap string value) (st' : state) :
  _handle_set command w st = Returned r st' →
  r !! "error" = None →
  ∃ ttl_str expires_at,
    r !! "success" = Some (VBool true)
    ∧ is_none (dict_get command "key") = false
    ∧ is_none (dict_get command "value") = false
    ∧ st' =
      {| memory :=
           <[py_str (dict_get command "key") :=
               {| e_value := dict_get command "value";
                  e_value_type := None;
                  e_ttl_seconds := dict_get command "ttl_seconds";
                  e_created_at := clock w;
                  e_expires_at := expires_at |}]> (memory st);
         database :=
           _save_to_database (io_ok w) (py_str (dict_get command "key"))
             (dict_get command "value") ttl_str (clock w) expires_at (database st) |}.
Proof.
  unfold _handle_set, store_entry. intros Hset Herr.
  destruct (is_none (dict_get command "key")); simpl in Hset;
    [by injection Hset as <- <-|].
  destruct (is_none (dict_get command "value")); simpl in Hset;
    [by injection Hset as <- <-|].
  destruct (is_none (dict_get command "ttl_seconds")); simpl in Hset.
  - injection Hset as <- <-. by eexists _, _.
  - destruct (py_float _); injection Hset as <- <-; [by eexists _, _|done].
Qed.

(** C1: after a set command with a key that get accepts and a non-null
    value has gone through, a get command with the same key returns the
    very value that was set, provided the entry has not expired by the
    time of the get. *)
Theorem get_after_set (cs cg : gmap string value) (w1 w2 : world) (st st1 : state)
    (r1 : gmap string value) (k v : value) :
  eq_str (dict_get cs "command") "set" = true →
  dict_get cs "key" = k →
  dict_get cs "value" = v →
  eq_str (dict_get cg "command") "get" = true →
  dict_get cg "key" = k →
  py_not k = false →
  v ≠ VNull →
  do_command cs w1 st = Returned r1 st1 →
  r1 !! "error" = None →
  (∀ e, memory st1 !! py_str k = Some e → is_expired (clock w2) e = false) →
  ∃ r2 st2,
    do_command cg w2 st1 = Returned r2 st2
    ∧ r2 !! "success" = Some (VBool true)
    ∧ r2 !! "value" = Some v.
Proof.
  intros Hcs Hk Hv Hcg Hk' Hnot Hnull Hset Herr Hlive.
  rewrite do_command_set in Hset by done.
  destruct (set_accepted _ _ _ _ _ Hset Herr) as (ttl_str & exp & _ & _ & _ & ->).
  rewrite Hk, Hv in Hlive. simpl in Hlive. rewrite lookup_insert_eq in Hlive.
  specialize (Hlive _ eq_refl).
  rewrite do_command_get by done. unfold _handle_get.
  rewrite Hk', Hnot, cleanup_memory, Hk, Hv. simpl.
  rewrite lookup_insert_eq. simpl. rewrite Hlive.
  by eexists _, _.
Qed.


(** ** The empty-string key *)

Lemma set_empty_key (command : gmap string value) (w : world) (st : state) :
  eq_str (dict_get command "command") "set" = true →
  dict_get command "key" = VStr "" →
  is_none (dict_get command "value") = false →
  is_none (dict_get command "ttl_seconds") = true
    ∨ is_Some (py_float (py_str (dict_get command "ttl_seconds"))) →
  ∃ r st' e,
    do_command command w st = Returned r st'
    ∧ r !! "success" = Some (VBool true)
    ∧ r !! "key" = Some (VStr "")
    ∧ memory st' !! "" = Some e
    ∧ e_value e = dict_get command "value"
    ∧ (io_ok w = true → is_Some (database st' !! "")).
Proof.
  intros Hc Hk Hv Httl. rewrite do_command_set by done.
  unfold _handle_set, store_entry. rewrite Hk, Hv. simpl.
  assert (Hdb : ∀ ttl_str exp, io_ok w = true →
    is_Some (_save_to_database (io_ok w) "" (dict_get command "value") ttl_str
               (clock w) exp (database st) !! "")).
  { intros ttl_str exp ->. simpl. rewrite lookup_insert_eq. eauto. }
  destruct Httl as [->|[f Hf]]; simpl.
  - eexists _, _, _. split; [done|]. do 2 (split; [done|]). simpl.
    rewrite lookup_insert_eq. split; [done|]. split; [done|]. apply Hdb.
  - destruct (is_none (dict_get command "ttl_seconds")); simpl; [|rewrite Hf];
      (eexists _, _, _; split; [done|]; do 2 (split; [done|]); simpl;
       rewrite lookup_insert_eq; split; [done|]; split; [done|]; apply Hdb).
Qed.

Lemma get_delete_empty_key (command : gmap string value) (w : world) (st : state) :
  eq_str (dict_get command "command") "get" = true
    ∨ eq_str (dict_get command "command") "delete" = true →
  dict_get command "key" = VStr "" →
  ∃ r, do_command command w st = Returned r st ∧ invalid_argument r.
Proof.
  intros [Hc|Hc] Hk.
  - rewrite do_command_get by done. unfold _handle_get. rewrite Hk. simpl.
    eexists. split; [done|]. do 2 right. by left.
  - rewrite do_command_delete by done. unfold _handle_delete. rewrite Hk. simpl.
    eexists. split; [done|]. by do 3 right.
Qed.

Lemma empty_key_survives (command : gmap string value) (w : world) (st : state) (e : entry) :
  memory st !! "" = Some e →
  (py_str (dict_get command "key") = "" → dict_get command "key" = VStr "") →
  memory (final_state (do_command command w st)) !! "" = None →
  eq_str (dict_get command "command") "delete_all" = true
    ∨ is_expired (clock w) e = true.
Proof.
  intros He Hstr Hgone. unfold do_command in Hgone.
  destruct (eq_str _ "set").
  { exfalso. unfold _handle_set, store_entry in Hgone.
    repeat case_match; simpl in Hgone; try congruence;
      (destruct (decide (py_str (dict_get command "key") = "")) as [Hs|Hs];
       [rewrite Hs, lookup_insert_eq in Hgone
       |rewrite lookup_insert_ne in Hgone by done]; congruence). }
  destruct (eq_str _ "get").
  { destruct (is_expired (clock w) e) eqn:Hexp; [by right|exfalso].
    unfold _handle_get in Hgone.
    destruct (py_not _); simpl in Hgone; [congruence|].
    assert (Hst1 : memory (_cleanup_expired_keys (io_ok w) (clock w) st) !! "" = Some e).
    { rewrite cleanup_memory, He. simpl. by rewrite Hexp. }
    destruct (memory _ !! py_str _); simpl in Hgone; [congruence|].
    destruct (decide _) as [Hemp|Hemp]; [|simpl in Hgone; congruence].
    by rewrite Hemp, lookup_empty in Hst1. }
  destruct (eq_str _ "delete").
  { exfalso. unfold _handle_delete in Hgone.
    destruct (py_not _) eqn:Hnot; simpl in Hgone; [congruence|].
    destruct (memory st !! py_str _); simpl in Hgone; [|congruence].
    destruct (decide (py_str (dict_get command "key") = "")) as [Hs|Hs].
    - rewrite (Hstr Hs) in Hnot. done.
    - rewrite lookup_delete_ne in Hgone by done. congruence. }
  destruct (eq_str _ "delete_all"); [by left|].
  simpl in Hgone. congruence.
Qed.

(** C9: a set command with the empty string as key and a non-null value
    succeeds and stores an entry under the empty string; a get or a delete
    command with that key returns an argument error and changes nothing;
    and a command that ends with no entry under the empty string where
    there was one is delete_all, or a command run when that entry had
    expired. The last part reads keys as Python does: only the empty
    string has the empty text for its [str()]. *)
Theorem empty_key_set_but_unreachable :
  (∀ command w st,
     eq_str (dict_get command "command") "set" = true →
     dict_get command "key" = VStr "" →
     is_none (dict_get command "value") = false →
     is_none (dict_get command "ttl_seconds") = true
       ∨ is_Some (py_float (py_str (dict_get command "ttl_seconds"))) →
     ∃ r st' e,
       do_command command w st = Returned r st'
       ∧ r !! "success" = Some (VBool true)
       ∧ r !! "key" = Some (VStr "")
       ∧ memory st' !! "" = Some e
       ∧ e_value e = dict_get command "value"
       ∧ (io_ok w = true → is_Some (database st' !! "")))
  ∧ (∀ command w st,
       eq_str (dict_get command "command") "get" = true
         ∨ eq_str (dict_get command "command") "delete" = true →
       dict_get command "key" = VStr "" →
       ∃ r, do_command command w st = Returned r st ∧ invalid_argument r)
  ∧ (∀ command w st e,
       memory st !! "" = Some e →
       (py_str (dict_get command "key") = "" → dict_get command "key" = VStr "") →
       memory (final_state (do_command command w st)) !! "" = None →
       eq_str (dict_get command "command") "delete_all" = true
         ∨ is_expired (clock w) e = true).
Proof.
  split; [exact set_empty_key|].
  split; [exact get_delete_empty_key|exact empty_key_survives].
Qed.


(** ** Persistence *)

Lemma deserialize_serialize (v : value) :
  json_round_trips v → deserialize (serialize v).1 (serialize v).2 = v.
Proof.
  unfold deserialize. destruct v; simpl; try (by intros ->). done.
Qed.

Lemma set_other_key (command : gmap string value) (w : world) (st : state) (ks : string) :
  eq_str (dict_get command "command") "set" = true →
  py_str (dict_get command "key") ≠ ks →
  memory (final_state (do_command command w st)) !! ks = memory st !! ks
  ∧ database (final_state (do_command command w st)) !! ks = database st !! ks.
Proof.
  intros Hc Hks. rewrite do_command_set by done.
  unfold _handle_set, store_entry, _save_to_database.
  repeat case_match; simpl; by rewrite ?lookup_insert_ne.
Qed.

Lemma run_app (l1 l2 : list (gmap string value * world)) (st : state) :
  run (l1 ++ l2) st = run l2 (run l1 st).
Proof. apply foldl_app. Qed.

Lemma run_other_keys (l : list (gmap string value * world)) (st : state) (ks : string) :
  Forall (λ cw, eq_str (dict_get cw.1 "command") "set" = true
                ∧ py_str (dict_get cw.1 "key") ≠ ks) l →
  memory (run l st) !! ks = memory st !! ks
  ∧ database (run l st) !! ks = database st !! ks.
Proof.
  intros Hl. revert st. induction Hl as [|[c w] l [Hc Hks] _ IH]; intros st; [done|].
  change (run ((c, w) :: l) st) with (run l (final_state (do_command c w st))).
  destruct (IH (final_state (do_command c w st))) as [-> ->].
  by apply set_other_key.
Qed.

Lemma save_lookup (io : bool) (key : string) (v : value) (ttl_str : option string)
    (created_at : float) (expires_at : option float) (db : gmap string row) :
  io = true →
  _save_to_database io key v ttl_str created_at expires_at db !! key =
  Some {| r_value := (serialize v).2;
          r_value_type := (serialize v).1;
          r_ttl_seconds := ttl_str;
          r_created_at := created_at;
          r_expires_at := sqlite_real expires_at |}.
Proof. intros ->. apply lookup_insert_eq. Qed.

Lemma restart_lookup (now : float) (st : state) (ks : string) :
  memory (restart true now st) !! ks = database st !! ks ≫= load_row now.
Proof. unfold restart, _load_from_database. simpl. apply lookup_omap. Qed.

(** C5, as the code has it: take a run of commands in which a set command
    for a key went through and wrote its row, followed only by set
    commands for other keys. Then the cache holds the value of that
    command, and if the entry is not expired at the time of a restart, the
    restarted instance, once its load has gone through, holds an entry for
    the key with the same value, creation time and expiry, provided the
    [json] module reads back what it wrote for the value. *)
Theorem restart_reproduces_persisted_set
    (before after : list (gmap string value * world))
    (c : gmap string value) (w : world) (st : state) (now : float)
    (r : gmap string value) (st' : state) :
  eq_str (dict_get c "command") "set" = true →
  do_command c w (run before st) = Returned r st' →
  r !! "error" = None →
  io_ok w = true →
  json_round_trips (dict_get c "value") →
  Forall (λ cw, eq_str (dict_get cw.1 "command") "set" = true
                ∧ py_str (dict_get cw.1 "key") ≠ py_str (dict_get c "key")) after →
  ∃ e0,
    memory (run (before ++ (c, w) :: after) st) !! py_str (dict_get c "key") = Some e0
    ∧ e_value e0 = dict_get c "value"
    ∧ (live_at now (e_expires_at e0) = true →
       ∃ e,
         memory (restart true now (run (before ++ (c, w) :: after) st))
           !! py_str (dict_get c "key") = Some e
         ∧ e_value e = dict_get c "value"
         ∧ e_created_at e = e_created_at e0
         ∧ e_expires_at e = e_expires_at e0).
Proof.
  intros Hc Hset Herr Hio Hjson Hafter.
  rewrite run_app.
  change (run ((c, w) :: after) (run before st))
    with (run after (final_state (do_command c w (run before st)))).
  rewrite Hset. cbn [final_state].
  rewrite do_command_set in Hset by done.
  destruct (set_accepted _ _ _ _ _ Hset Herr) as (ttl_str & exp & _ & _ & _ & ->).
  match goal with
  | |- context [run after ?s] => destruct (run_other_keys after s _ Hafter) as [Hm Hd]
  end.
  cbn [memory database] in Hm, Hd.
  rewrite lookup_insert_eq in Hm. rewrite save_lookup in Hd by done.
  eexists. split; [exact Hm|]. split; [done|]. cbn [e_expires_at]. intros Hlive.
  rewrite restart_lookup, Hd. cbn [mbind option_bind]. unfold load_row.
  cbn [r_expires_at r_value r_value_type r_created_at r_ttl_seconds].
  rewrite (live_is_stored _ _ Hlive), Hlive.
  eexists. split; [done|]. simpl. by rewrite deserialize_serialize.
Qed.


(** ** Commands that fail *)

Lemma set_response_no_error (key_str : string) (v : value) :
  ({[ "success" := VBool true; "key" := VStr key_str; "value" := v ]}
     : gmap string value) !! "error" = None.
Proof. reflexivity. Qed.

Lemma delete_response_no_error (key_str : string) :
  ({[ "success" := VBool true; "key" := VStr key_str; "deleted" := VBool true ]}
     : gmap string value) !! "error" = None.
Proof. reflexivity. Qed.

(** X1: a command whose name is none of [set], [get], [delete] and
    [delete_all] (a missing name included) returns the error that names
    it, and changes neither the cache nor the table. *)
Theorem unknown_command_rejected (command : gmap string value) (w : world) (st : state) :
  eq_str (dict_get command "command") "set" = false →
  eq_str (dict_get command "command") "get" = false →
  eq_str (dict_get command "command") "delete" = false →
  eq_str (dict_get command "command") "delete_all" = false →
  ∃ r, do_command command w st = Returned r st
       ∧ r !! "error" =
           Some (VStr ("Unknown command: " ++ py_str (dict_get command "command")))
       ∧ r !! "success" = None.
Proof.
  intros Hs Hg Hd Ha. unfold do_command. rewrite Hs, Hg, Hd, Ha.
  eexists. split; [done|]. split; reflexivity.
Qed.

(** X3: a command that returns an error has changed nothing, the one
    exception being the not-found error of [get], which comes after the
    sweep and a possible reload. *)
Theorem error_leaves_state (command : gmap string value) (w : world) (st st' : state)
    (r : gmap string value) :
  do_command command w st = Returned r st' →
  is_Some (r !! "error") →
  st' = st
  ∨ (eq_str (dict_get command "command") "get" = true
     ∧ r = not_found (dict_get command "key")).
Proof.
  intros Hdo [msg Herr]. unfold do_command in Hdo.
  destruct (eq_str _ "set").
  { left. unfold _handle_set, store_entry in Hdo.
    repeat case_match; injection Hdo as <- <-; try done;
      by rewrite set_response_no_error in Herr. }
  destruct (eq_str _ "get") eqn:Hg.
  { unfold _handle_get in Hdo.
    repeat case_match; injection Hdo as <- <-; try (by left); try (by right);
      by rewrite entry_response_no_error in Herr. }
  destruct (eq_str _ "delete").
  { left. unfold _handle_delete in Hdo.
    repeat case_match; injection Hdo as <- <-; try done;
      by rewrite delete_response_no_error in Herr. }
  destruct (eq_str _ "delete_all").
  { unfold _handle_delete_all in Hdo. destruct (io_ok w); [|done].
    injection Hdo as <- <-. by vm_compute in Herr. }
  injection Hdo as <- <-. by left.
Qed.

(** ** Expiry seen through get *)

(** X4: when the database statements of the call go through, a get
    command for a cached key whose entry has expired by the clock of the
    call returns the not-found error, and the key is gone from the cache
    and from the table afterwards: the reload that follows a sweep that
    empties the cache cannot bring it back. *)
Theorem expired_entry_not_served (command : gmap string value) (w : world) (st : state)
    (e : entry) :
  eq_str (dict_get command "command") "get" = true →
  py_not (dict_get command "key") = false →
  memory st !! py_str (dict_get command "key") = Some e →
  is_expired (clock w) e = true →
  io_ok w = true →
  ∃ st',
    do_command command w st = Returned (not_found (dict_get command "key")) st'
    ∧ memory st' !! py_str (dict_get command "key") = None
    ∧ database st' !! py_str (dict_get command "key") = None.
Proof.
  intros Hc Hk He Hexp Hio. rewrite do_command_get by done. unfold _handle_get.
  rewrite Hk, Hio.
  set (st1 := _cleanup_expired_keys true (clock w) st).
  set (ks := py_str (dict_get command "key")) in *.
  assert (Hm : memory st1 !! ks = None).
  { subst st1. rewrite cleanup_memory, He. simpl. by rewrite Hexp. }
  assert (Hd : database st1 !! ks = None).
  { subst st1. by rewrite cleanup_database, He, Hexp. }
  rewrite Hm. destruct (decide (memory st1 = ∅)) as [Hemp|Hemp]; [|by eexists].
  assert (Hm2 : memory (_load_from_database true (clock_reload w) st1) !! ks = None).
  { unfold _load_from_database. cbn [memory]. by rewrite lookup_omap, Hd. }
  rewrite Hm2. by eexists.
Qed.


(** ** How commands compose *)

(** A set command is rejected or goes through by its arguments alone. *)
Lemma handle_set_cases (command : gmap string value) (w : world) :
  (∃ msg, ∀ st, _handle_set command w st = Returned (error_response msg) st)
  ∨ (∃ ttl_str expires_at,
       (expires_at = None
        ∨ ∃ ttl_float,
            py_float (py_str (dict_get command "ttl_seconds")) = Some ttl_float
            ∧ expires_at = Some (clock w + ttl_float)%float)
       ∧ ∀ st,
           _handle_set command w st =
           store_entry w (dict_get command "key") (dict_get command "value")
             (dict_get command "ttl_seconds") ttl_str expires_at st).
Proof.
  unfold _handle_set.
  destruct (is_none (dict_get command "key") || is_none (dict_get command "value"));
    [left; by eexists|].
  destruct (negb (is_none (dict_get command "ttl_seconds")));
    [|right; eexists _, _; split; [by left|done]].
  destruct (py_float _) as [f|] eqn:Hf; [|left; by eexists].
  right. eexists _, _. split; [right; by exists f|done].
Qed.

(** X5: a set command that goes through, with its row written, replaces
    whatever an earlier set command for the same key left: the outcome
    (response, cache and table, hence value, TTL, creation time and
    expiry) is the one it has without the earlier command. *)
Theorem set_replaces_earlier_set (c1 c2 : gmap string value) (w1 w2 : world)
    (st st2 : state) (r : gmap string value) :
  eq_str (dict_get c1 "command") "set" = true →
  eq_str (dict_get c2 "command") "set" = true →
  py_str (dict_get c1 "key") = py_str (dict_get c2 "key") →
  io_ok w2 = true →
  do_command c2 w2 st = Returned r st2 →
  r !! "error" = None →
  do_command c2 w2 (final_state (do_command c1 w1 st)) = Returned r st2.
Proof.
  intros H1 H2 Hk Hio Hdo Herr. rewrite <- Hdo. rewrite do_command_set in Hdo by done.
  rewrite !do_command_set by done.
  destruct (handle_set_cases c2 w2) as [[msg Hc2]|(ttl2 & exp2 & _ & Hc2)].
  { rewrite Hc2 in Hdo. injection Hdo as <- <-. done. }
  rewrite !Hc2.
  destruct (handle_set_cases c1 w1) as [[msg Hc1]|(ttl1 & exp1 & _ & Hc1)];
    rewrite Hc1; [done|].
  unfold store_entry, _save_to_database. cbn [final_state memory database].
  rewrite Hio, Hk, insert_insert_eq. f_equal. f_equal.
  destruct (io_ok w1); [apply insert_insert_eq|done].
Qed.

(** X6: after a delete command whose statement went through, a get
    command for the same key returns the not-found error, even when the
    cache is left empty and get reloads it from the table. *)
Theorem get_after_delete (cd cg : gmap string value) (w1 w2 : world) (st : state) (k : value) :
  eq_str (dict_get cd "command") "delete" = true →
  dict_get cd "key" = k →
  eq_str (dict_get cg "command") "get" = true →
  dict_get cg "key" = k →
  py_not k = false →
  io_ok w1 = true →
  ∃ st', do_command cg w2 (final_state (do_command cd w1 st)) = Returned (not_found k) st'
         ∧ memory st' !! py_str k = None.
Proof.
  intros Hd Hkd Hg Hkg Hk Hio.
  rewrite (do_command_delete cd) by done. unfold _handle_delete.
  rewrite Hkd, Hk, Hio. cbn [final_state].
  set (st0 := {| memory := _; database := _ |}).
  assert (Hm0 : memory st0 !! py_str k = None).
  { subst st0. cbn [memory]. destruct (memory st !! py_str k) eqn:Hm; [|done].
    apply lookup_delete_eq. }
  assert (Hd0 : database st0 !! py_str k = None) by apply lookup_delete_eq.
  rewrite (do_command_get cg) by done. unfold _handle_get. rewrite Hkg, Hk.
  set (st1 := _cleanup_expired_keys (io_ok w2) (clock w2) st0).
  assert (Hm1 : memory st1 !! py_str k = None).
  { subst st1. by rewrite cleanup_memory, Hm0. }
  rewrite Hm1. destruct (decide (memory st1 = ∅)); [|by eexists].
  assert (Hm2 : memory (_load_from_database (io_ok w2) (clock_reload w2) st1)
                  !! py_str k = None).
  { unfold _load_from_database. destruct (io_ok w2); [|done]. cbn [memory].
    rewrite lookup_omap. subst st1. by rewrite cleanup_database, Hm0, Hd0. }
  rewrite Hm2. by eexists.
Qed.

(** X7: after a delete_all command whose statement went through, both
    tiers are empty: a restart loads nothing, and [get_readings] lists
    nothing, at any time and whether or not their own statements go
    through. *)
Theorem nothing_left_after_delete_all (command : gmap string value) (w : world) (st : state)
    (io : bool) (t1 t2 : float) :
  eq_str (dict_get command "command") "delete_all" = true →
  io_ok w = true →
  memory (restart io t1 (final_state (do_command command w st))) = ∅
  ∧ (get_readings io t1 t2 (final_state (do_command command w st))).1 = ∅.
Proof.
  intros Hc Hio. rewrite do_command_delete_all by done.
  unfold _handle_delete_all. rewrite Hio. cbn [final_state].
  assert (Hload : ∀ st0, memory st0 = ∅ → database st0 = ∅ →
            memory (_load_from_database io t1 st0) = ∅).
  { intros st0 Hm Hd. unfold _load_from_database. destruct io; [|done].
    cbn [memory]. rewrite Hd. apply omap_empty. }
  split; [by apply Hload|].
  unfold get_readings. cbn [fst memory]. rewrite decide_True by done.
  rewrite cleanup_empty by (by apply Hload). rewrite Hload by done.
  apply fmap_empty.
Qed.


(** ** Sweeps that find nothing *)

Lemma expired_keys_nil (now : float) (mem : gmap string entry) :
  (∀ k e, mem !! k = Some e → is_expired now e = false) →
  expired_keys now mem = [].
Proof.
  intros Hlive. apply elem_of_nil_inv. intros k Hin.
  apply elem_of_expired_keys in Hin as (e & Hk & Hexp).
  rewrite (Hlive _ _ Hk) in Hexp. done.
Qed.

Lemma cleanup_nothing_expired (io : bool) (now : float) (st : state) :
  (∀ k e, memory st !! k = Some e → is_expired now e = false) →
  _cleanup_expired_keys io now st = st.
Proof.
  intros Hlive. unfold _cleanup_expired_keys. by rewrite expired_keys_nil.
Qed.

Lemma cleanup_leaves_unexpired (io : bool) (now : float) (st : state) (k : string) (e : entry) :
  memory (_cleanup_expired_keys io now st) !! k = Some e →
  memory st !! k = Some e ∧ is_expired now e = false.
Proof.
  rewrite cleanup_memory. destruct (memory st !! k) as [e'|]; simpl; [|done].
  destruct (is_expired now e') eqn:Hexp; [done|]. by intros [= <-].
Qed.

(** X8: the sweep is idempotent: once it has run at some time, the cache
    holds no entry expired at that time, and running it again at that
    time changes neither the cache nor the table. *)
Theorem cleanup_idempotent (io io' : bool) (now : float) (st : state) :
  (∀ k e, memory (_cleanup_expired_keys io now st) !! k = Some e →
          is_expired now e = false)
  ∧ _cleanup_expired_keys io' now (_cleanup_expired_keys io now st)
    = _cleanup_expired_keys io now st.
Proof.
  assert (Hlive : ∀ k e, memory (_cleanup_expired_keys io now st) !! k = Some e →
                         is_expired now e = false).
  { intros k e He. by apply cleanup_leaves_unexpired in He as [_ ?]. }
  split; [done|]. by apply cleanup_nothing_expired.
Qed.

(** X9: a get command on a cache that is not empty and holds no entry
    expired by the clock of the call is a pure read: cache and table are
    left exactly as they were, found or not. *)
Theorem get_is_read_only (command : gmap string value) (w : world) (st : state) :
  eq_str (dict_get command "command") "get" = true →
  memory st ≠ ∅ →
  (∀ k e, memory st !! k = Some e → is_expired (clock w) e = false) →
  final_state (do_command command w st) = st.
Proof.
  intros Hc Hne Hlive. rewrite do_command_get by done. unfold _handle_get.
  rewrite cleanup_nothing_expired by done.
  destruct (py_not _); [done|].
  destruct (memory st !! _); [done|].
  by rewrite decide_False.
Qed.

(** ** Readings *)

Lemma reading_value (data : entry) : reading data !! "value" = Some (e_value data).
Proof. reflexivity. Qed.

(** X10: [get_readings] lists no expired entry and misses no live one:
    whatever it lists under a key is the reading of an entry that is in
    the cache afterwards and is not expired at the time of the sweep, and
    when the cache was not empty, every cached entry not expired at that
    time is listed with its value. *)
Theorem get_readings_lists_unexpired (io : bool) (t1 t2 : float) (st : state) (k : string) :
  (∀ rd, (get_readings io t1 t2 st).1 !! k = Some rd →
     ∃ e, memory (get_readings io t1 t2 st).2 !! k = Some e
          ∧ is_expired t2 e = false
          ∧ rd = reading e
          ∧ rd !! "value" = Some (e_value e))
  ∧ (∀ e, memory st ≠ ∅ → memory st !! k = Some e → is_expired t2 e = false →
       (get_readings io t1 t2 st).1 !! k = Some (reading e)).
Proof.
  unfold get_readings. cbn [fst snd]. split.
  - intros rd Hrd. rewrite lookup_fmap in Hrd.
    destruct (memory _ !! k) as [e|] eqn:He; [|done].
    injection Hrd as <-. exists e. split; [done|].
    apply cleanup_leaves_unexpired in He as [_ Hexp].
    split; [done|]. split; [done|]. apply reading_value.
  - intros e Hne He Hexp. rewrite decide_False by done.
    rewrite lookup_fmap, cleanup_memory, He. simpl. by rewrite Hexp.
Qed.


(** ** Write-through *)

Lemma cleanup_keeps_mirror (io : bool) (now : float) (st : state) :
  cached_from_table st → cached_from_table (_cleanup_expired_keys io now st).
Proof.
  intros Hinv k e He. apply cleanup_leaves_unexpired in He as [He Hexp].
  rewrite cleanup_database, He, Hexp, andb_false_r. by apply Hinv.
Qed.

Lemma load_gives_mirror (io : bool) (now : float) (st : state) :
  cached_from_table st → cached_from_table (_load_from_database io now st).
Proof.
  intros Hinv. unfold _load_from_database. destruct io; [|done].
  intros k e He. cbn [memory database] in *. rewrite lookup_omap in He.
  destruct (database st !! k) as [r|]; [|done]. simpl in He.
  unfold load_row in He. destruct (live_at now (r_expires_at r)); [|done].
  injection He as <-. by exists r.
Qed.

(** One command keeps the mirror. *)
Lemma keeps_mirror (command : gmap string value) (w : world) (st : state) :
  cached_from_table st →
  io_ok w = true →
  (eq_str (dict_get command "command") "set" = true →
   json_round_trips (dict_get command "value") ∧ expiry_is_number command w) →
  cached_from_table (final_state (do_command command w st)).
Proof.
  intros Hinv Hio Hset. unfold do_command.
  destruct (eq_str _ "set").
  { destruct (Hset eq_refl) as [Hjson Hnum].
    destruct (handle_set_cases command w) as [[msg ->]|(ttl_str & exp & Hexp & ->)];
      [done|].
    assert (Hreal : sqlite_real exp = exp).
    { destruct Hexp as [->|(f & Hf & ->)]; [done|]. simpl. by rewrite (Hnum _ Hf). }
    unfold store_entry. cbn [final_state]. intros k e He. cbn [memory database] in *.
    destruct (decide (k = py_str (dict_get command "key"))) as [->|Hne].
    - rewrite lookup_insert_eq in He. injection He as <-.
      rewrite save_lookup by done. eexists. split; [done|]. cbn.
      split; [done|]. split; [done|]. by apply deserialize_serialize.
    - rewrite lookup_insert_ne in He by done.
      unfold _save_to_database. rewrite Hio, lookup_insert_ne by done.
      by apply Hinv. }
  destruct (eq_str _ "get").
  { unfold _handle_get. destruct (py_not _); [done|].
    repeat case_match; cbn [final_state];
      auto using cleanup_keeps_mirror, load_gives_mirror. }
  destruct (eq_str _ "delete").
  { unfold _handle_delete. destruct (py_not _); [done|]. cbn [final_state].
    intros k e He. cbn [memory database] in *. rewrite Hio. simpl.
    destruct (decide (k = py_str (dict_get command "key"))) as [->|Hne].
    - destruct (memory st !! py_str _) eqn:Hm; [|congruence].
      by rewrite lookup_delete_eq in He.
    - rewrite lookup_delete_ne by done. apply Hinv.
      destruct (memory st !! py_str _); [|done].
      by rewrite lookup_delete_ne in He. }
  destruct (eq_str _ "delete_all"); [|done].
  unfold _handle_delete_all. rewrite Hio. cbn [final_state]. by intros k e He.
Qed.

(** X11: write-through keeps the cache a mirror of the table. If every
    cached entry has a row with the same creation time and expiry whose
    text reads back as the cached value, the same holds after any command
    whose database statements go through, provided, for a set command,
    that the [json] module reads back what it writes for the value and
    that the expiry computed from the TTL is a number (a NaN is stored as
    NULL, and the row then differs from the cache). *)
Theorem do_command_keeps_mirror (command : gmap string value) (w : world) (st : state) :
  cached_from_table st →
  io_ok w = true →
  (eq_str (dict_get command "command") "set" = true →
   json_round_trips (dict_get command "value") ∧ expiry_is_number command w) →
  cached_from_table (final_state (do_command command w st)).
Proof. apply keeps_mirror. Qed.

(** X15: the same along a whole run. Starting from a mirrored state (a
    new instance over an empty table is one), after any list of commands
    whose database statements all go through and whose set commands carry
    values the [json] module reads back and TTLs that give a number as
    expiry, the cache mirrors the table. *)
Theorem run_keeps_mirror (commands : list (gmap string value * world)) (st : state) :
  cached_from_table st →
  Forall (λ cw, io_ok cw.2 = true
                ∧ (eq_str (dict_get cw.1 "command") "set" = true →
                   json_round_trips (dict_get cw.1 "value")
                   ∧ expiry_is_number cw.1 cw.2)) commands →
  cached_from_table (run commands st).
Proof.
  intros Hinv Hall. revert st Hinv.
  induction Hall as [|[c w] l [Hio Hset] _ IH]; intros st Hinv; [done|].
  change (run ((c, w) :: l) st) with (run l (final_state (do_command c w st))).
  apply IH. by apply keeps_mirror.
Qed.

(** X12: a restart reproduces a mirrored cache. If the cache mirrors the
    table, then a new instance over the same table, once its load has
    gone through, holds for every cached key that is live at the time of
    the load an entry with the same value, creation time and expiry. *)
Theorem restart_reproduces_mirror (st : state) (now : float) (k : string) (e : entry) :
  cached_from_table st →
  memory st !! k = Some e →
  live_at now (e_expires_at e) = true →
  ∃ e', memory (restart true now st) !! k = Some e'
        ∧ e_value e' = e_value e
        ∧ e_created_at e' = e_created_at e
        ∧ e_expires_at e' = e_expires_at e.
Proof.
  intros Hinv He Hlive. destruct (Hinv _ _ He) as (r & Hr & Hc & Hx & Hv).
  rewrite restart_lookup, Hr. simpl. unfold load_row. rewrite Hx, Hlive.
  eexists. split; [done|]. cbn. by rewrite Hv, Hc.
Qed.

(** ** The times a get reports *)

(** X13: after a set command with a TTL has gone through, a get command
    for the same key, run while the entry is not expired, reports the
    value, the clock of the set as [created_at], and that clock plus the
    TTL, read as a number, as [expires_at]. *)
Theorem get_reports_times (cs cg : gmap string value) (w1 w2 : world) (st : state)
    (k v ttl : value) (ttl_float : float) :
  eq_str (dict_get cs "command") "set" = true →
  dict_get cs "key" = k →
  dict_get cs "value" = v →
  dict_get cs "ttl_seconds" = ttl →
  eq_str (dict_get cg "command") "get" = true →
  dict_get cg "key" = k →
  py_not k = false →
  is_none v = false →
  is_none ttl = false →
  py_float (py_str ttl) = Some ttl_float →
  PrimFloat.leb (clock w1 + ttl_float) (clock w2) = false →
  ∃ r st',
    do_command cg w2 (final_state (do_command cs w1 st)) = Returned r st'
    ∧ r !! "value" = Some v
    ∧ r !! "created_at" = Some (VFloat (clock w1))
    ∧ r !! "expires_at" = Some (VFloat (clock w1 + ttl_float)).
Proof.
  intros Hs Hk Hv Httl Hg Hk' Hnot Hnv Hnt Hf Hlive.
  rewrite (do_command_set cs) by done. unfold _handle_set.
  rewrite Hk, Hv, Httl, Hnv, Hnt, Hf.
  assert (Hnk : is_none k = false) by (by destruct k).
  rewrite Hnk. cbn [orb negb]. unfold store_entry. cbn [final_state].
  rewrite (do_command_get cg) by done. unfold _handle_get.
  rewrite Hk', Hnot, cleanup_memory. cbn [memory].
  rewrite lookup_insert_eq. unfold swept, is_expired. cbn [e_expires_at].
  rewrite Hlive. by eexists _, _.
Qed.

(** ** delete, twice *)

(** X14: delete is idempotent on the state as well: in the same world, a
    second delete command for the same key returns the same response and
    leaves cache and table as the first one left them. *)
Theorem delete_twice (command : gmap string value) (w : world) (st : state) :
  eq_str (dict_get command "command") "delete" = true →
  do_command command w (final_state (do_command command w st))
  = do_command command w st.
Proof.
  intros Hc. rewrite !do_command_delete by done. unfold _handle_delete.
  destruct (py_not _); [done|]. cbn [final_state memory database].
  f_equal. f_equal.
  - destruct (memory st !! py_str _) eqn:Hm.
    + rewrite lookup_delete_eq. done.
    + by rewrite Hm.
  - unfold _delete_from_database. destruct (io_ok w); [|done].
    apply delete_id, lookup_delete_eq.
Qed.


(** ** Keys *)

(** X16: keys are told apart by their text only. After a set command has
    gone through, a get command with any key of the same [str()] (the
    integer 5 and the string "5", say) returns the value set, while the
    entry is not expired. *)
Theorem get_after_set_same_text (cs cg : gmap string value) (w1 w2 : world)
    (st st1 : state) (r1 : gmap string value) :
  eq_str (dict_get cs "command") "set" = true →
  eq_str (dict_get cg "command") "get" = true →
  py_str (dict_get cs "key") = py_str (dict_get cg "key") →
  py_not (dict_get cg "key") = false →
  do_command cs w1 st = Returned r1 st1 →
  r1 !! "error" = None →
  (∀ e, memory st1 !! py_str (dict_get cg "key") = Some e →
        is_expired (clock w2) e = false) →
  ∃ r2 st2,
    do_command cg w2 st1 = Returned r2 st2
    ∧ r2 !! "success" = Some (VBool true)
    ∧ r2 !! "value" = Some (dict_get cs "value").
Proof.
  intros Hcs Hcg Hk Hnot Hset Herr Hlive.
  rewrite do_command_set in Hset by done.
  destruct (set_accepted _ _ _ _ _ Hset Herr) as (ttl_str & exp & _ & _ & _ & ->).
  cbn [memory] in Hlive. rewrite Hk, lookup_insert_eq in Hlive.
  specialize (Hlive _ eq_refl).
  rewrite do_command_get by done. unfold _handle_get.
  rewrite Hnot, cleanup_memory. cbn [memory].
  rewrite Hk, lookup_insert_eq. unfold swept. rewrite Hlive.
  by eexists _, _.
Qed.

(** X17: set checks its key against [None] only, get and delete by
    truth. So a set command goes through with any key that is not [None]
    but false ([0], [False], [0.0], the empty string, list or
    dictionary), and stores the value under its text, while get and
    delete commands with that key return an argument error and change
    nothing. *)
Theorem falsy_key_set_but_rejected (k : value) :
  is_none k = false →
  py_not k = true →
  (∀ command w st,
     eq_str (dict_get command "command") "set" = true →
     dict_get command "key" = k →
     is_none (dict_get command "value") = false →
     is_none (dict_get command "ttl_seconds") = true →
     ∃ r st' e,
       do_command command w st = Returned r st'
       ∧ r !! "success" = Some (VBool true)
       ∧ memory st' !! py_str k = Some e
       ∧ e_value e = dict_get command "value")
  ∧ (∀ command w st,
       eq_str (dict_get command "command") "get" = true
         ∨ eq_str (dict_get command "command") "delete" = true →
       dict_get command "key" = k →
       ∃ r, do_command command w st = Returned r st ∧ invalid_argument r).
Proof.
  intros Hnone Hnot. split.
  - intros command w st Hc Hk Hv Httl. rewrite do_command_set by done.
    unfold _handle_set, store_entry. rewrite Hk, Hnone, Hv, Httl. cbn [orb negb].
    eexists _, _, _. split; [done|]. split; [done|]. cbn [memory].
    rewrite lookup_insert_eq. done.
  - intros command w st [Hc|Hc] Hk.
    + rewrite do_command_get by done. unfold _handle_get. rewrite Hk, Hnot.
      eexists. split; [done|]. do 2 right. by left.
    + rewrite do_command_delete by done. unfold _handle_delete. rewrite Hk, Hnot.
      eexists. split; [done|]. by do 3 right.
Qed.


(** ** The load against the sweep *)

(** X18: the load and the sweep agree on what is expired. An entry
    loaded at some time is never one the sweep would remove at that time;
    and when the clock and the row's expiry are numbers, a row the load
    leaves out is one the sweep removes. *)
Theorem reload_agrees_with_sweep (now : float) (st : state) (k : string) (r : row) :
  database st !! k = Some r →
  match memory (restart true now st) !! k with
  | Some e => is_expired now e = false
  | None =>
      PrimFloat.eqb now now = true →
      (∀ x, r_expires_at r = Some x → PrimFloat.eqb x x = true) →
      ∃ x, r_expires_at r = Some x ∧ PrimFloat.leb x now = true
  end.
Proof.
  intros Hr. rewrite restart_lookup, Hr. simpl. unfold load_row, live_at.
  destruct (r_expires_at r) as [x|] eqn:Hx; [|done].
  destruct (PrimFloat.ltb now x) eqn:Hlt.
  - unfold is_expired. cbn [e_expires_at]. by apply ltb_true_leb_false.
  - intros Hnow Hnum. exists x. split; [done|].
    rewrite ltb_negb_leb in Hlt by auto. by destruct (PrimFloat.leb x now).
Qed.

Lemma is_nan_add_nan (c : float) : PrimFloat.is_nan (c + nan) = true.
Proof.
  unfold PrimFloat.is_nan. by rewrite FloatAxioms.eqb_spec, add_nan.
Qed.

(** X19: a TTL that [float()] reads as NaN (the text "nan", say) is
    accepted, and the entry then never expires: no sweep ever removes it
    from the cache, and its row, whose NaN expiry the table holds as
    NULL, is loaded by every restart as an entry without expiry. *)
Theorem nan_ttl_never_expires (command : gmap string value) (w : world) (st : state) :
  eq_str (dict_get command "command") "set" = true →
  is_none (dict_get command "key") = false →
  is_none (dict_get command "value") = false →
  is_none (dict_get command "ttl_seconds") = false →
  py_float (py_str (dict_get command "ttl_seconds")) = Some nan →
  io_ok w = true →
  ∃ r st' e,
    do_command command w st = Returned r st'
    ∧ r !! "success" = Some (VBool true)
    ∧ memory st' !! py_str (dict_get command "key") = Some e
    ∧ (∀ now, is_expired now e = false)
    ∧ (∀ now, ∃ e',
         memory (restart true now st') !! py_str (dict_get command "key") = Some e'
         ∧ e_created_at e' = clock w
         ∧ e_expires_at e' = None).
Proof.
  intros Hc Hk Hv Httl Hf Hio. rewrite do_command_set by done.
  unfold _handle_set, store_entry. rewrite Hk, Hv, Httl, Hf. cbn [orb negb].
  eexists _, _, _. split; [done|]. split; [done|]. cbn [memory].
  rewrite lookup_insert_eq. split; [done|]. split.
  - intros now. unfold is_expired. cbn [e_expires_at]. apply leb_add_nan.
  - intros now. rewrite restart_lookup. cbn [database].
    rewrite save_lookup by done. cbn [mbind option_bind sqlite_real].
    rewrite is_nan_add_nan. unfold load_row, live_at. cbn [r_expires_at].
    by eexists.
Qed.

End Properties.

(** * Closed examples *)

Import Example.

(** C8 at a test's input: [set] of [None] under the key [a]. *)
Lemma set_null_value_rejected_example :
  ∃ r, do_command (lib := reference) set_a_null at_100 holding_a = Returned r holding_a
       ∧ invalid_argument r
       ∧ r !! "error" =
           Some (VStr "Both 'key' and 'value' are required for set command").
Proof.
  apply (set_null_value_rejected (lib := reference) set_a_null at_100 holding_a);
    reflexivity.
Defined.

(** C2 at a TTL that [float()] refuses. *)
Lemma set_unparsable_ttl_rejected_example :
  ∃ r, do_command (lib := reference) set_a_ttl_soon at_100 fresh = Returned r fresh
       ∧ invalid_argument r.
Proof.
  apply (set_unparsable_ttl_rejected (lib := reference) set_a_ttl_soon at_100 fresh);
    reflexivity.
Defined.

(** C2 as stated fails: a TTL of [-5] is a number, negative, and the
    command is accepted; the entry is stored in both tiers, already
    expired. *)
Lemma negative_ttl_is_stored :
  do_command (lib := reference) set_a_ttl_minus_5 at_100 fresh =
  Returned
    (dict [("success", VBool true); ("key", VStr "a"); ("value", VInt 1)])
    {| memory :=
         {[ "a" := {| e_value := VInt 1; e_value_type := None;
                      e_ttl_seconds := VInt (-5);
                      e_created_at := 100; e_expires_at := Some 95%float |} ]};
       database :=
         {[ "a" := {| r_value := "1"; r_value_type := "json";
                      r_ttl_seconds := Some "-5";
                      r_created_at := 100; r_expires_at := Some 95%float |} ]} |}.
Proof. vm_compute. reflexivity. Qed.

(** C7 at a test's input: [delete] of a key that was never set. *)
Lemma delete_reports_deleted_example :
  ∃ r st',
    do_command (lib := reference) delete_nope at_100 holding_a = Returned r st'
    ∧ r !! "success" = Some (VBool true)
    ∧ r !! "deleted" = Some (VBool true)
    ∧ r !! "error" = None
    ∧ memory st' = delete "nope" (memory holding_a)
    ∧ database st' = _delete_from_database true "nope" (database holding_a).
Proof.
  apply (delete_reports_deleted (lib := reference) delete_nope at_100 holding_a);
    reflexivity.
Defined.

(** C3 at the failing input: [delete_all] while SQLite fails. *)
Lemma delete_all_raises_example :
  do_command (lib := reference) delete_all failing_at_100 holding_a =
  Raised SqliteError {| memory := ∅; database := database holding_a |}.
Proof.
  apply (delete_all_raises_on_io_failure (lib := reference) delete_all
           failing_at_100 holding_a); reflexivity.
Defined.

(** C10 at the failing input: [delete_all] does not always succeed.
    With the table unreachable its unguarded statement raises, and the
    call returns no response at all; the table keeps its row. *)
Lemma delete_all_can_raise :
  response (do_command (lib := reference) delete_all failing_at_120 unloaded) = None
  ∧ database (final_state (do_command (lib := reference) delete_all failing_at_120 unloaded))
    = {[ "persist" := row_persist ]}.
Proof. split; vm_compute; reflexivity. Qed.

(** X20 on an instance holding one entry: the count is 0. *)
Lemma delete_all_counts_zero_example :
  ∃ r,
    do_command (lib := reference) delete_all at_100 holding_a =
      Returned r {| memory := ∅; database := ∅ |}
    ∧ r !! "success" = Some (VBool true)
    ∧ r !! "deleted_count" = Some (VInt 0).
Proof.
  apply (delete_all_counts_zero (lib := reference) delete_all at_100 holding_a);
    reflexivity.
Defined.

(** C1 at the specification's scenario: [set("a", 1)], then [get("a")]
    twenty seconds later. *)
Lemma get_after_set_example :
  ∃ r2 st2,
    do_command (lib := reference) get_a at_120 holding_a = Returned r2 st2
    ∧ r2 !! "success" = Some (VBool true)
    ∧ r2 !! "value" = Some (VInt 1).
Proof.
  apply (get_after_set (lib := reference) set_a_1 get_a at_100 at_120 fresh holding_a
           (dict [("success", VBool true); ("key", VStr "a"); ("value", VInt 1)])
           (VStr "a") (VInt 1)); try reflexivity.
  - discriminate.
  - intros e He. vm_compute in He. injection He as <-. reflexivity.
Defined.

(** C6 at the persistence test's input: a [get] on an instance whose
    cache is empty, over a table that holds the key. *)
Lemma get_sweeps_then_reloads_example :
  ∃ r st',
    do_command (lib := reference) get_persist at_120 unloaded = Returned r st'
    ∧ (st' = _cleanup_expired_keys true 120 unloaded
       ∨ (memory (_cleanup_expired_keys true 120 unloaded) = ∅
          ∧ st' = _load_from_database (lib := reference) true 121
                    (_cleanup_expired_keys true 120 unloaded)))
    ∧ (memory unloaded = ∅ →
       st' = _load_from_database (lib := reference) true 121 unloaded)
    ∧ (memory st' !! "persist" = None ↔ r = not_found (lib := reference) (VStr "persist"))
    ∧ (∀ data, memory st' !! "persist" = Some data →
               r = entry_response "persist" data).
Proof.
  apply (get_sweeps_then_reloads (lib := reference) get_persist at_120 unloaded);
    reflexivity.
Defined.

(** What that [get] returns: the value read back from the table. *)
Example get_from_unloaded :
  response (do_command (lib := reference) get_persist at_120 unloaded) ≫= (.!! "value")
  = Some (VStr "val").
Proof. vm_compute. reflexivity. Qed.

(** C5 on three sets: [a], then [persist] with a TTL of 60 seconds, then
    [b]; a restart at time 130 reads [persist] back. *)
Lemma restart_reproduces_persisted_set_example :
  ∃ e0,
    memory (run (lib := reference)
              ([(set_a_1, at_100)] ++ (set_persist_60, at_100) :: [(set_b_2, at_120)])
              fresh) !! "persist" = Some e0
    ∧ e_value e0 = VStr "val"
    ∧ (live_at 130 (e_expires_at e0) = true →
       ∃ e,
         memory (restart (lib := reference) true 130
                   (run (lib := reference)
                      ([(set_a_1, at_100)] ++ (set_persist_60, at_100) :: [(set_b_2, at_120)])
                      fresh)) !! "persist" = Some e
         ∧ e_value e = VStr "val"
         ∧ e_created_at e = e_created_at e0
         ∧ e_expires_at e = e_expires_at e0).
Proof.
  eapply (restart_reproduces_persisted_set (lib := reference)
            [(set_a_1, at_100)] [(set_b_2, at_120)] set_persist_60 at_100 fresh 130).
  - reflexivity.
  - vm_compute. reflexivity.
  - reflexivity.
  - reflexivity.
  - exact I.
  - repeat constructor. discriminate.
Defined.

(** C5 as stated fails: a set command reports success although its row
    could not be written, and a restart then finds nothing under the
    key. *)
Lemma unsaved_set_is_lost :
  response (do_command (lib := reference) set_persist failing_at_100 fresh)
    ≫= (.!! "success") = Some (VBool true)
  ∧ (e_value <$> memory (run (lib := reference) [(set_persist, failing_at_100)] fresh)
                   !! "persist") = Some (VStr "val")
  ∧ memory (restart (lib := reference) true 130
              (run (lib := reference) [(set_persist, failing_at_100)] fresh))
      !! "persist" = None.
Proof. repeat split; vm_compute; reflexivity. Qed.

(** ** Beyond the claims *)

(** X1 on a command named [flush]. *)
Lemma unknown_command_rejected_example :
  ∃ r, do_command (lib := reference) flush at_100 holding_a = Returned r holding_a
       ∧ r !! "error" = Some (VStr "Unknown command: flush")
       ∧ r !! "success" = None.
Proof.
  apply (unknown_command_rejected (lib := reference) flush at_100 holding_a);
    reflexivity.
Defined.

(** X3 on a set command with a TTL that is no number. *)
Lemma error_leaves_state_example :
  holding_a = holding_a
  ∨ (eq_str (dict_get set_a_ttl_soon "command") "get" = true
     ∧ error_response "ttl_seconds must be a valid number"
       = not_found (lib := reference) (dict_get set_a_ttl_soon "key")).
Proof.
  apply (error_leaves_state (lib := reference) set_a_ttl_soon at_100 holding_a holding_a
           (error_response "ttl_seconds must be a valid number")).
  - reflexivity.
  - eexists. reflexivity.
Defined.

(** X4: [a] was set at 100 with a TTL of 10; a get at 120. *)
Lemma expired_entry_not_served_example :
  ∃ st',
    do_command (lib := reference) get_a at_120 holding_a_until_110
    = Returned (not_found (lib := reference) (VStr "a")) st'
    ∧ memory st' !! "a" = None
    ∧ database st' !! "a" = None.
Proof.
  apply (expired_entry_not_served (lib := reference) get_a at_120 holding_a_until_110
           entry_a_until_110); reflexivity.
Defined.

(** X5: [a] set without a TTL, then set again with one. *)
Lemma set_replaces_earlier_set_example :
  do_command (lib := reference) set_a_ttl_10 at_100
    (final_state (do_command (lib := reference) set_a_1 at_100 fresh))
  = Returned
      (dict [("success", VBool true); ("key", VStr "a"); ("value", VInt 1)])
      holding_a_until_110.
Proof.
  apply (set_replaces_earlier_set (lib := reference) set_a_1 set_a_ttl_10 at_100 at_100
           fresh); reflexivity.
Defined.

(** X6: [a] deleted, then read. *)
Lemma get_after_delete_example :
  ∃ st',
    do_command (lib := reference) get_a at_120
      (final_state (do_command (lib := reference) delete_a at_100 holding_a))
    = Returned (not_found (lib := reference) (VStr "a")) st'
    ∧ memory st' !! "a" = None.
Proof.
  apply (get_after_delete (lib := reference) delete_a get_a at_100 at_120 holding_a
           (VStr "a")); reflexivity.
Defined.

(** X7 on an instance holding [a]. *)
Lemma nothing_left_after_delete_all_example :
  memory (restart (lib := reference) true 120
            (final_state (do_command (lib := reference) delete_all at_100 holding_a))) = ∅
  ∧ (get_readings (lib := reference) true 120 121
       (final_state (do_command (lib := reference) delete_all at_100 holding_a))).1 = ∅.
Proof.
  apply (nothing_left_after_delete_all (lib := reference) delete_all at_100 holding_a
           true 120 121); reflexivity.
Defined.

(** X9: a get for a missing key on a live cache. *)
Lemma get_is_read_only_example :
  final_state (do_command (lib := reference) get_b at_105 holding_a_until_110)
  = holding_a_until_110.
Proof.
  apply (get_is_read_only (lib := reference) get_b at_105 holding_a_until_110).
  - reflexivity.
  - intros Hemp. apply (f_equal (.!! "a")) in Hemp. vm_compute in Hemp. discriminate.
  - intros k e He. cbn [memory holding_a_until_110] in He.
    apply lookup_singleton_Some in He as [_ <-]. reflexivity.
Defined.

(** The instance holding [a] mirrors its table. *)
Lemma holding_a_mirrors : cached_from_table (lib := reference) holding_a.
Proof.
  intros k e He. cbn [memory holding_a] in He.
  apply lookup_singleton_Some in He as [<- <-].
  exists row_a_1. by vm_compute.
Qed.

(** X11: a set of [a] with a TTL of 10 seconds on it. *)
Lemma do_command_keeps_mirror_example :
  io_ok at_100 = true
  ∧ cached_from_table (lib := reference)
      (final_state (do_command (lib := reference) set_a_ttl_10 at_100 holding_a)).
Proof.
  split; [reflexivity|].
  apply (do_command_keeps_mirror (lib := reference) set_a_ttl_10 at_100 holding_a).
  - exact holding_a_mirrors.
  - reflexivity.
  - intros _. split; [reflexivity|]. intros f Hf. vm_compute in Hf.
    injection Hf as <-. reflexivity.
Defined.

(** X12: a restart at 120 of the instance holding [a]. *)
Lemma restart_reproduces_mirror_example :
  ∃ e', memory (restart (lib := reference) true 120 holding_a) !! "a" = Some e'
        ∧ e_value e' = VInt 1
        ∧ e_created_at e' = 100%float
        ∧ e_expires_at e' = None.
Proof.
  apply (restart_reproduces_mirror (lib := reference) holding_a 120 "a" entry_a_1).
  - exact holding_a_mirrors.
  - reflexivity.
  - reflexivity.
Defined.

(** X13: [a] set at 100 with a TTL of 10 seconds, read at 105. *)
Lemma get_reports_times_example :
  ∃ r st',
    do_command (lib := reference) get_a at_105
      (final_state (do_command (lib := reference) set_a_ttl_10 at_100 fresh))
    = Returned r st'
    ∧ r !! "value" = Some (VInt 1)
    ∧ r !! "created_at" = Some (VFloat 100)
    ∧ r !! "expires_at" = Some (VFloat (100 + 10)).
Proof.
  apply (get_reports_times (lib := reference) set_a_ttl_10 get_a at_100 at_105 fresh
           (VStr "a") (VInt 1) (VInt 10) 10%float); reflexivity.
Defined.

(** X14: [a] deleted twice. *)
Lemma delete_twice_example :
  do_command (lib := reference) delete_a at_100
    (final_state (do_command (lib := reference) delete_a at_100 holding_a))
  = do_command (lib := reference) delete_a at_100 holding_a.
Proof.
  apply (delete_twice (lib := reference) delete_a at_100 holding_a). reflexivity.
Defined.

(** X15: a new instance, then three commands. *)
Lemma run_keeps_mirror_example :
  cached_from_table (lib := reference) fresh
  ∧ cached_from_table (lib := reference)
      (run (lib := reference)
         [(set_a_ttl_10, at_100); (set_b_2, at_105); (get_a, at_120)] fresh).
Proof.
  assert (Hfresh : cached_from_table (lib := reference) fresh) by (by intros k e He).
  split; [exact Hfresh|].
  apply (run_keeps_mirror (lib := reference)
           [(set_a_ttl_10, at_100); (set_b_2, at_105); (get_a, at_120)] fresh Hfresh).
  repeat (apply Forall_cons_2;
          [split; [reflexivity|]; intros _; (split; [reflexivity|]); intros f Hf;
           vm_compute in Hf; try discriminate Hf; injection Hf as <-; reflexivity|]).
  apply Forall_nil_2.
Defined.

(** X16: set under the integer 5, read under the string "5". *)
Lemma get_after_set_same_text_example :
  ∃ r2 st2,
    do_command (lib := reference) get_5_text at_120
      (final_state (do_command (lib := reference) set_5 at_100 fresh))
    = Returned r2 st2
    ∧ r2 !! "success" = Some (VBool true)
    ∧ r2 !! "value" = Some (VStr "five").
Proof.
  eapply (get_after_set_same_text (lib := reference) set_5 get_5_text at_100 at_120 fresh).
  - reflexivity.
  - reflexivity.
  - reflexivity.
  - reflexivity.
  - reflexivity.
  - reflexivity.
  - intros e He. vm_compute in He. injection He as <-. reflexivity.
Defined.

(** X17 on the key 0: stored by set, refused by get. *)
Lemma falsy_key_set_but_rejected_example :
  (∃ r st' e,
     do_command (lib := reference) set_0 at_100 fresh = Returned r st'
     ∧ r !! "success" = Some (VBool true)
     ∧ memory st' !! "0" = Some e
     ∧ e_value e = VStr "zero")
  ∧ (∃ r, do_command (lib := reference) get_0 at_120 holding_a = Returned r holding_a
          ∧ invalid_argument r).
Proof.
  destruct (falsy_key_set_but_rejected (lib := reference) (VInt 0) eq_refl eq_refl)
    as [Hset Hget].
  split.
  - apply (Hset set_0 at_100 fresh); reflexivity.
  - apply (Hget get_0 at_120 holding_a); [left|]; reflexivity.
Defined.

(** X18: the row held until 110 is left out by a load at 120, and the
    sweep at 120 removes such an entry. *)
Lemma reload_agrees_with_sweep_example :
  memory (restart (lib := reference) true 120 holding_a_until_110) !! "a" = None
  ∧ ∃ x, r_expires_at row_a_until_110 = Some x ∧ PrimFloat.leb x 120 = true.
Proof.
  split; [reflexivity|].
  refine (reload_agrees_with_sweep (lib := reference) 120 holding_a_until_110 "a"
            row_a_until_110 eq_refl eq_refl _).
  intros x [= <-]. reflexivity.
Defined.

(** X19: a TTL given as the text "nan". *)
Lemma nan_ttl_never_expires_example :
  ∃ r st' e,
    do_command (lib := reference_with_nan) set_a_ttl_nan at_100 fresh = Returned r st'
    ∧ r !! "success" = Some (VBool true)
    ∧ memory st' !! "a" = Some e
    ∧ (∀ now, is_expired now e = false)
    ∧ (∀ now, ∃ e',
         memory (restart (lib := reference_with_nan) true now st') !! "a" = Some e'
         ∧ e_created_at e' = 100%float
         ∧ e_expires_at e' = None).
Proof.
  apply (nan_ttl_never_expires (lib := reference_with_nan) set_a_ttl_nan at_100
           fresh); reflexivity.
Defined.
